(** * Footballytics: the FootballAPI service and the TabManager controller

    A shallow embedding of [FootballAPI] (fetch, cache, normalisation, mock
    fallback) and of [TabManager] (tab routing), with the properties of the
    specification stated over it.

    Conventions of the embedding.
    - A JavaScript string is a Rocq [string]; its characters stand for code
      units, so [substring(0, 3)] is the first three characters.
    - A JSON number is an integer ([Z]), taken small enough to be exact as a
      JavaScript number; [NaN] is the missing case of an [option Z].
      Fractional JSON numbers are outside the model.
    - An object literal used as a lookup table is an association list read by
      own property name; a key that names a member every object inherits
      (such as "constructor") is outside the model.
    - [async]/[await] is sequential composition; an exception is the [Raise]
      case of [outcome]; the clock and the network are explicit inputs. *)

From Stdlib Require Import ZArith QArith Qround Qabs Lqa Ascii Sorted.
From stdpp Require Import base option list strings gmap.

Set Warnings "-register-all".

Local Open Scope string_scope.
Local Open Scope Z_scope.

(** ** JavaScript values *)

Module Js.

(** What [JSON.parse] can produce, and [undefined] for an absent property. *)
Inductive value : Type :=
| VUndefined
| VNull
| VBool (b : bool)
| VNum (n : Z)
| VStr (s : string)
| VArr (items : list value)
| VObj (fields : list (string * value)).

(** Exceptions the modelled code can meet. *)
Inductive error : Type :=
| TypeError (msg : string)
| SyntaxError (msg : string)
| ApiError (msg : string).

Inductive outcome (A : Type) : Type :=
| Ret (a : A)
| Raise (e : error).
Arguments Ret {A} a.
Arguments Raise {A} e.

Definition bind {A B} (m : outcome A) (k : A -> outcome B) : outcome B :=
  match m with
  | Ret a => k a
  | Raise e => Raise e
  end.

Fixpoint mapM {A B} (f : A -> outcome B) (l : list A) : outcome (list B) :=
  match l with
  | [] => Ret []
  | x :: r =>
      bind (f x) (fun y => bind (mapM f r) (fun ys => Ret (y :: ys)))
  end.

(** [Array.prototype.filter] with a predicate that may throw. *)
Fixpoint filterM {A} (p : A -> outcome bool) (l : list A) : outcome (list A) :=
  match l with
  | [] => Ret []
  | x :: r =>
      bind (p x) (fun b =>
      bind (filterM p r) (fun ys => Ret (if b then x :: ys else ys)))
  end.

(** Own property of a table written as an object literal. *)
Fixpoint assoc {A} (k : string) (tbl : list (string * A)) : option A :=
  match tbl with
  | [] => None
  | (k', a) :: r => if String.eqb k k' then Some a else assoc k r
  end.

(** [x.p]: throws on [null] and [undefined]; the property names read by
    this program exist on objects only. *)
Definition get (x : value) (p : string) : outcome value :=
  match x with
  | VUndefined => Raise (TypeError ("Cannot read properties of undefined (reading '" +:+ p +:+ "')"))
  | VNull => Raise (TypeError ("Cannot read properties of null (reading '" +:+ p +:+ "')"))
  | VObj fields => Ret (default VUndefined (assoc p fields))
  | _ => Ret VUndefined
  end.

(** ToBoolean. *)
Definition truthy (x : value) : bool :=
  match x with
  | VUndefined | VNull => false
  | VBool b => b
  | VNum n => negb (n =? 0)
  | VStr s => negb (String.eqb s "")
  | VArr _ | VObj _ => true
  end.

(** [a || b] on values. *)
Definition or (a b : value) : value := if truthy a then a else b.

Definition isArray (x : value) : option (list value) :=
  match x with VArr l => Some l | _ => None end.

(** [x === s] for a string [s]. *)
Definition eqStr (x : value) (s : string) : bool :=
  match x with VStr t => String.eqb t s | _ => false end.

(** [a === b]: by value on primitives; two arrays or objects are equal
    only when they are the same reference, which the caller decides. *)
Definition strictEq (a b : value) : bool :=
  match a, b with
  | VUndefined, VUndefined => true
  | VNull, VNull => true
  | VBool x, VBool y => Bool.eqb x y
  | VNum x, VNum y => x =? y
  | VStr x, VStr y => String.eqb x y
  | _, _ => false
  end.

Definition isReference (a : value) : bool :=
  match a with VArr _ | VObj _ => true | _ => false end.

(** Decimal digits of an integer, as [Number.prototype.toString] prints
    them. *)
Definition digitChar (d : Z) : ascii := ascii_of_nat (48 + Z.to_nat d).

Fixpoint digitsFuel (fuel : nat) (n : Z) (acc : string) : string :=
  match fuel with
  | O => acc
  | S f =>
      let acc' := String (digitChar (n mod 10)) acc in
      if n <? 10 then acc' else digitsFuel f (n / 10) acc'
  end.

Definition natString (n : Z) : string :=
  digitsFuel (S (Z.to_nat (Z.log2 n))) n "".

Definition numString (n : Z) : string :=
  if n <? 0 then "-" +:+ natString (- n) else natString n.

Fixpoint joinWith (sep : string) (parts : list string) : string :=
  match parts with
  | [] => ""
  | [p] => p
  | p :: r => p +:+ sep +:+ joinWith sep r
  end.

(** ToString, as a template literal and [parseInt] apply it. *)
Fixpoint toString (x : value) : string :=
  match x with
  | VUndefined => "undefined"
  | VNull => "null"
  | VBool true => "true"
  | VBool false => "false"
  | VNum n => numString n
  | VStr s => s
  | VArr items =>
      joinWith ","
        (map (fun i => match i with
                       | VUndefined | VNull => ""
                       | _ => toString i
                       end) items)
  | VObj _ => "[object Object]"
  end.

(** *** [parseInt] without a radix *)

Definition isWhite (c : ascii) : bool :=
  let n := nat_of_ascii c in
  existsb (Nat.eqb n) [9; 10; 11; 12; 13; 32; 160]%nat.

Fixpoint trimStart (s : string) : string :=
  match s with
  | String c r => if isWhite c then trimStart r else s
  | EmptyString => s
  end.

Definition digitVal (radix : Z) (c : ascii) : option Z :=
  let n := Z.of_nat (nat_of_ascii c) in
  let d := if (48 <=? n) && (n <=? 57) then Some (n - 48)
           else if (97 <=? n) && (n <=? 122) then Some (n - 87)
           else if (65 <=? n) && (n <=? 90) then Some (n - 55)
           else None in
  match d with
  | Some v => if v <? radix then Some v else None
  | None => None
  end.

(** The longest prefix of digits, read in [radix]; [None] when it is
    empty. *)
Fixpoint readDigits (radix : Z) (s : string) (acc : option Z) : option Z :=
  match s with
  | String c r =>
      match digitVal radix c with
      | Some d => readDigits radix r (Some (default 0 acc * radix + d))
      | None => acc
      end
  | EmptyString => acc
  end.

Definition parseIntString (input : string) : option Z :=
  let s := trimStart input in
  let '(sign, s1) :=
    match s with
    | String "-" r => (-1, r)
    | String "+" r => (1, r)
    | _ => (1, s)
    end in
  let '(radix, s2) :=
    match s1 with
    | String "0" (String "x" r) => (16, r)
    | String "0" (String "X" r) => (16, r)
    | _ => (10, s1)
    end in
  match readDigits radix s2 None with
  | Some n => Some (sign * n)
  | None => None
  end.

Definition parseInt (x : value) : option Z := parseIntString (toString x).

(** [parseInt(x) || d]: [NaN] and [0] are falsy. *)
Definition parseIntOr (x : value) (d : Z) : Z :=
  match parseInt x with
  | Some n => if n =? 0 then d else n
  | None => d
  end.

(** [String.prototype.includes]. *)
Fixpoint isPrefix (p s : string) : bool :=
  match p, s with
  | EmptyString, _ => true
  | String a p', String b s' => Ascii.eqb a b && isPrefix p' s'
  | String _ _, EmptyString => false
  end.

Fixpoint includes (s sub : string) : bool :=
  isPrefix sub s ||
  match s with
  | String _ r => includes r sub
  | EmptyString => false
  end.

(** [s.substring(0, n)]. *)
Fixpoint takeChars (n : nat) (s : string) : string :=
  match n, s with
  | S m, String c r => String c (takeChars m r)
  | _, _ => ""
  end.

(** [toUpperCase] on the letters a-z; other code units are kept. *)
Definition upperChar (c : ascii) : ascii :=
  let n := nat_of_ascii c in
  if (97 <=? n)%nat && (n <=? 122)%nat then ascii_of_nat (n - 32) else c.

Fixpoint toUpperCase (s : string) : string :=
  match s with
  | String c r => String (upperChar c) (toUpperCase r)
  | EmptyString => ""
  end.

(** [v?.substring(0, 3).toUpperCase()]: [undefined] on [null] and
    [undefined], a [TypeError] on a value that has no [substring]. *)
Definition tlaOf (v : value) : outcome value :=
  match v with
  | VUndefined | VNull => Ret VUndefined
  | VStr s => Ret (VStr (toUpperCase (takeChars 3 s)))
  | _ => Raise (TypeError "substring is not a function")
  end.

End Js.

Import Js.

(** ** Static configuration tables *)

Definition leagueMap : list (string * string) :=
  [("PL", "4328"); ("PD", "4335"); ("SA", "4332"); ("BL1", "4331"); ("FL1", "4334")].

Definition getLeagueId (competition : string) : string :=
  default "4328" (assoc competition leagueMap).

Definition competitionNames : list (string * string) :=
  [("PL", "Premier League"); ("PD", "La Liga"); ("SA", "Serie A");
   ("BL1", "Bundesliga"); ("FL1", "Ligue 1")].

Definition getCompetitionName (code : string) : string :=
  default "Football League" (assoc code competitionNames).

Definition countryMap : list (string * string) :=
  [("PL", "England"); ("PD", "Spain"); ("SA", "Italy"); ("BL1", "Germany");
   ("FL1", "France")].

Definition getCountryForCompetition (competition : string) : string :=
  default "England" (assoc competition countryMap).

Definition leagueNames : list (string * string) :=
  [("PL", "English_Premier_League"); ("PD", "Spanish_La_Liga");
   ("SA", "Italian_Serie_A"); ("BL1", "German_Bundesliga");
   ("FL1", "French_Ligue_1")].

Definition getLeagueName (competition : string) : string :=
  default "English_Premier_League" (assoc competition leagueNames).


(** ** The fetch cache layer *)

Definition baseURL : string := "https://www.thesportsdb.com/api/v1/json".
Definition apiKey : string := "3".
Definition cacheExpiry : Z := 600000.

Record CacheEntry : Type := { data : value; timestamp : Z }.

(** The mutable part of a [FootballAPI] object; [baseURL], [apiKey] and
    [cacheExpiry] are set by the constructor and never assigned again. *)
Record FootballAPI : Type := { cache : gmap string CacheEntry }.

Definition newFootballAPI : FootballAPI := {| cache := ∅ |}.

(** What the provider answers to one request. *)
Inductive LiveOutcome : Type :=
| NetworkError
| HttpResponse (status : Z) (body : option value).

(** [response.ok]: the status is in the range 200-299. *)
Definition responseOk (status : Z) : bool := (200 <=? status) && (status <=? 299).

(** The inputs of one [fetchData] call: the clock read at the cache check,
    the provider's answer, and the clock read once the answer is there. *)
Record FetchEnv : Type :=
  { checkTime : Z; response : LiveOutcome; doneTime : Z }.

(** A computation on the API object: its result or exception, the object
    afterwards, and the URLs it requested from the provider, in order. *)
Definition Api (A : Type) : Type := FootballAPI -> outcome A * FootballAPI * list string.

Definition ret {A} (a : A) : Api A := fun api => (Ret a, api, []).
Definition raise {A} (e : error) : Api A := fun api => (Raise e, api, []).
Definition lift {A} (o : outcome A) : Api A := fun api => (o, api, []).
Definition request (url : string) : Api unit := fun api => (Ret tt, api, [url]).
Definition cacheGet (key : string) : Api (option CacheEntry) :=
  fun api => (Ret (cache api !! key), api, []).
Definition cacheSet (key : string) (c : CacheEntry) : Api unit :=
  fun api => (Ret tt, {| cache := <[key := c]> (cache api) |}, []).

Definition andThen {A B} (m : Api A) (k : A -> Api B) : Api B :=
  fun api =>
    match m api with
    | (Ret a, api1, log1) =>
        let '(r, api2, log2) := k a api1 in (r, api2, (log1 ++ log2)%list)
    | (Raise e, api1, log1) => (Raise e, api1, log1)
    end.

Definition tryCatch {A} (m : Api A) (handler : error -> Api A) : Api A :=
  fun api =>
    match m api with
    | (Ret a, api1, log1) => (Ret a, api1, log1)
    | (Raise e, api1, log1) =>
        let '(r, api2, log2) := handler e api1 in (r, api2, (log1 ++ log2)%list)
    end.

Notation "x <- m ;; k" := (andThen m (fun x => k))
  (at level 100, m at next level, right associativity).
Notation "m ;;; k" := (andThen m (fun _ => k))
  (at level 100, right associativity).

(** *** Calendar dates: [new Date(ms).toISOString().split('T')[0]] *)

Definition msPerDay : Z := 86400000.

Definition pad (width : nat) (n : Z) : string :=
  let s := natString n in
  String.concat "" (replicate (width - String.length s) "0") +:+ s.

(** Proleptic Gregorian date of a day count since 1970-01-01. *)
Definition civilFromDays (days : Z) : Z * Z * Z :=
  let z := days + 719468 in
  let era := z / 146097 in
  let doe := z - era * 146097 in
  let yoe := (doe - doe / 1460 + doe / 36524 - doe / 146096) / 365 in
  let doy := doe - (365 * yoe + yoe / 4 - yoe / 100) in
  let mp := (5 * doy + 2) / 153 in
  let d := doy - (153 * mp + 2) / 5 + 1 in
  let m := if mp <? 10 then mp + 3 else mp - 9 in
  let y := yoe + era * 400 + (if m <=? 2 then 1 else 0) in
  (y, m, d).

Definition isoDate (ms : Z) : string :=
  let '(y, m, d) := civilFromDays (ms / msPerDay) in
  let year := if (0 <=? y) && (y <=? 9999) then pad 4 y
              else (if y <? 0 then "-" else "+") +:+ pad 6 (Z.abs y) in
  year +:+ "-" +:+ pad 2 m +:+ "-" +:+ pad 2 d.


(** *** Mock data of the fetch layer *)

Definition badge (slug : string) : value :=
  VStr ("https://www.thesportsdb.com/images/media/team/badge/" +:+ slug +:+ ".png").

Definition mockTeam (idTeam strTeam strTeamShort slug intFormedYear strStadium
                       strWebsite strLocation : string) : value :=
  VObj [("idTeam", VStr idTeam); ("strTeam", VStr strTeam);
        ("strTeamShort", VStr strTeamShort); ("strBadge", badge slug);
        ("intFormedYear", VStr intFormedYear); ("strStadium", VStr strStadium);
        ("strWebsite", VStr strWebsite); ("strLocation", VStr strLocation)].

Definition mockTeamsPayload : value :=
  VObj
    [("teams", VArr
       [mockTeam "133604" "Arsenal" "ARS" "arsenal" "1886" "Emirates Stadium"
                 "www.arsenal.com" "London, England";
        mockTeam "133612" "Chelsea" "CHE" "chelsea" "1905" "Stamford Bridge"
                 "www.chelseafc.com" "London, England";
        mockTeam "133602" "Liverpool" "LIV" "liverpool" "1892" "Anfield"
                 "www.liverpoolfc.com" "Liverpool, England";
        mockTeam "133616" "Manchester City" "MCI" "manchester-city" "1880"
                 "Etihad Stadium" "www.mancity.com" "Manchester, England"]);
     ("_isMockData", VBool true);
     ("_notice", VStr "This is demonstration data. In production, this would be live data from TheSportsDB API.")].

Definition mockTableRow (intRank idTeam strTeam intPlayed intWin intDraw intLoss
                           intGoalsFor intGoalsAgainst intGoalDifference intPoints
                           slug strForm : string) : value :=
  VObj [("intRank", VStr intRank); ("idTeam", VStr idTeam); ("strTeam", VStr strTeam);
        ("intPlayed", VStr intPlayed); ("intWin", VStr intWin);
        ("intDraw", VStr intDraw); ("intLoss", VStr intLoss);
        ("intGoalsFor", VStr intGoalsFor); ("intGoalsAgainst", VStr intGoalsAgainst);
        ("intGoalDifference", VStr intGoalDifference); ("intPoints", VStr intPoints);
        ("strBadge", badge slug); ("strForm", VStr strForm)].

Definition mockTablePayload : value :=
  VObj
    [("table", VArr
       [mockTableRow "1" "133602" "Liverpool" "15" "11" "3" "1" "29" "8" "21" "36"
                     "liverpool" "WWWDW";
        mockTableRow "2" "133604" "Arsenal" "15" "9" "5" "1" "26" "12" "14" "32"
                     "arsenal" "WWDLD";
        mockTableRow "3" "133616" "Manchester City" "15" "9" "4" "2" "31" "15" "16"
                     "31" "manchester-city" "WLDWW";
        mockTableRow "4" "133612" "Chelsea" "15" "8" "4" "3" "28" "18" "10" "28"
                     "chelsea" "WWLWD"]);
     ("_isMockData", VBool true);
     ("_notice", VStr "This is demonstration data showing Premier League standings.")].

Definition mockEvent (idEvent strEvent strHomeTeam strAwayTeam : string)
    (intHomeScore intAwayScore : value) (dateEvent strTime strStatus intRound : string)
    (matchday : Z) : value :=
  VObj [("idEvent", VStr idEvent); ("strEvent", VStr strEvent);
        ("strHomeTeam", VStr strHomeTeam); ("strAwayTeam", VStr strAwayTeam);
        ("intHomeScore", intHomeScore); ("intAwayScore", intAwayScore);
        ("dateEvent", VStr dateEvent); ("strTime", VStr strTime);
        ("strStatus", VStr strStatus); ("strSeason", VStr "2024-2025");
        ("intRound", VStr intRound); ("matchday", VNum matchday)].

(** The event dates are relative to the clock ([now]). *)
Definition mockEventsPayload (now : Z) : value :=
  VObj
    [("events", VArr
       [mockEvent "1" "Arsenal vs Chelsea" "Arsenal" "Chelsea" (VStr "2") (VStr "1")
                  (isoDate now) "17:30:00" "Match Finished" "15" 15;
        mockEvent "2" "Manchester City vs Liverpool" "Manchester City" "Liverpool"
                  (VStr "1") (VStr "3") (isoDate (now - 86400000)) "15:00:00"
                  "Match Finished" "15" 15;
        mockEvent "3" "Liverpool vs Arsenal" "Liverpool" "Arsenal" VNull VNull
                  (isoDate (now + 86400000)) "16:00:00" "Not Started" "16" 16;
        mockEvent "4" "Chelsea vs Manchester City" "Chelsea" "Manchester City"
                  (VStr "0") (VStr "2") (isoDate (now - 2 * 86400000)) "14:30:00"
                  "Match Finished" "14" 14;
        mockEvent "5" "Arsenal vs Liverpool" "Arsenal" "Liverpool" (VStr "3")
                  (VStr "1") (isoDate (now - 3 * 86400000)) "17:00:00"
                  "Match Finished" "14" 14;
        mockEvent "6" "Manchester City vs Arsenal" "Manchester City" "Arsenal"
                  (VStr "1") (VStr "1") (isoDate (now - 7 * 86400000)) "16:30:00"
                  "Match Finished" "13" 13]);
     ("_isMockData", VBool true);
     ("_notice", VStr "This is demonstration data showing recent and upcoming matches with proper matchday information.")].

Definition mockUnavailable : value :=
  VObj [("message", VStr "Mock data not available for this endpoint");
        ("_isMockData", VBool true)].

(** [getMockData]: the substitute payload, chosen by substrings of the
    endpoint; [now] is the clock at the time of the call. *)
Definition getMockData (endpoint : string) (now : Z) : value :=
  if includes endpoint "search_all_teams" || includes endpoint "teams" then
    mockTeamsPayload
  else if includes endpoint "lookuptable" || includes endpoint "table" then
    mockTablePayload
  else if includes endpoint "events" || includes endpoint "matches" then
    mockEventsPayload now
  else mockUnavailable.

(** *** [fetchData] *)

Definition fullUrl (endpoint : string) : string :=
  baseURL +:+ "/" +:+ apiKey +:+ endpoint.

(** The body of the [try] block: the request, then the answer. *)
Definition liveFetch (endpoint : string) (e : FetchEnv) : Api value :=
  request (fullUrl endpoint) ;;;
  match response e with
  | NetworkError => raise (TypeError "Failed to fetch")
  | HttpResponse status body =>
      if responseOk status then
        match body with
        | Some payload =>
            cacheSet endpoint {| data := payload; timestamp := doneTime e |} ;;;
            ret payload
        | None => raise (SyntaxError "Unexpected token in JSON")
        end
      else raise (ApiError ("API request failed: " +:+ numString status))
  end.

Definition fetchData (endpoint : string) (e : FetchEnv) : Api value :=
  cached <- cacheGet endpoint ;;
  match cached with
  | Some c =>
      if checkTime e - timestamp c <? cacheExpiry then ret (data c)
      else tryCatch (liveFetch endpoint e)
                    (fun _ => ret (getMockData endpoint (doneTime e)))
  | None =>
      tryCatch (liveFetch endpoint e)
               (fun _ => ret (getMockData endpoint (doneTime e)))
  end.

(** The cache entry for [endpoint] is present and younger than the TTL. *)
Definition fresh (api : FootballAPI) (endpoint : string) (now : Z) : bool :=
  match cache api !! endpoint with
  | Some c => now - timestamp c <? cacheExpiry
  | None => false
  end.

(** The live call fails: network error, status outside 200-299, or a body
    that is not JSON. *)
Definition liveFails (r : LiveOutcome) : bool :=
  match r with
  | NetworkError => true
  | HttpResponse status body => negb (responseOk status) || negb (bool_decide (is_Some body))
  end.

(** ** Data model of the normaliser *)

(** [{id, name, shortName, tla, crest}]: the team of a standings row or of
    a match. *)
Record TeamRef : Type :=
  { ref_id : value; ref_name : value; ref_shortName : value; ref_tla : value;
    ref_crest : value }.

Record StandingsRow : Type :=
  { position : Z;
    team : TeamRef;
    playedGames : Z; won : Z; draw : Z; lost : Z; points : Z;
    goalsFor : Z; goalsAgainst : Z; goalDifference : Z;
    form : value }.

(** One element of the [standings] array. *)
Record StandingsGroup : Type :=
  { stage : string; groupType : string; table : list StandingsRow }.

Record StandingsResult : Type :=
  { standings : list StandingsGroup;
    competitionName : string; competitionCode : string;
    season : string }.

(** A JavaScript number that [parseInt] produced. *)
Inductive number : Type :=
| NaN
| Num (n : Z).

Definition numberOf (o : option Z) : number :=
  match o with Some n => Num n | None => NaN end.

(** [None] is [null] in [home], [away] and [matchday]. *)
Record Match : Type :=
  { matchId : value;
    homeTeam : TeamRef; awayTeam : TeamRef;
    utcDate : string;
    status : string;
    home : option number; away : option number;
    matchCompetition : string;
    matchSeason : value;
    matchday : option number }.

Record MatchesResult : Type := { matches : list Match; matchCount : nat }.

(** [founded] is [null] ([None]) or a year. *)
Record Team : Type :=
  { team_id : value; team_name : value; team_shortName : value; team_tla : value;
    team_crest : value; founded : option Z;
    venue : value; website : value; location : value }.

Record TeamsResult : Type := { teams : list Team; teamCount : nat }.

(** The [season?: string] argument in a condition: given and not empty. *)
Definition seasonGiven (season : option string) : option string :=
  match season with
  | Some s => if String.eqb s "" then None else Some s
  | None => None
  end.

(** [season || "2024-2025"]. *)
Definition seasonOrDefault (season : option string) : string :=
  default "2024-2025" (seasonGiven season).

Definition defaultBadge : value :=
  VStr "https://www.thesportsdb.com/images/media/team/badge/default.png".

Notation "x <-- m ;; k" := (Js.bind m (fun x => k))
  (at level 100, m at next level, right associativity).

(** [Array.prototype.map] with the index, for a callback that may throw. *)
Fixpoint mapiFrom {A B} (f : nat -> A -> outcome B) (i : nat) (l : list A)
  : outcome (list B) :=
  match l with
  | [] => Ret []
  | x :: r => y <-- f i x ;; ys <-- mapiFrom f (S i) r ;; Ret (y :: ys)
  end.

Definition mapi {A B} (f : nat -> A -> outcome B) (l : list A) : outcome (list B) :=
  mapiFrom f 0 l.

(** ** Standings *)

(** The callback of [data.table.map] in [fetchStandings]. *)
Definition standingsRowOf (index : nat) (team : value) : outcome StandingsRow :=
  intRank <-- get team "intRank" ;;
  idTeam <-- get team "idTeam" ;;
  strTeam <-- get team "strTeam" ;;
  tla <-- tlaOf strTeam ;;
  strBadge <-- get team "strBadge" ;;
  intPlayed <-- get team "intPlayed" ;;
  intWin <-- get team "intWin" ;;
  intDraw <-- get team "intDraw" ;;
  intLoss <-- get team "intLoss" ;;
  intPoints <-- get team "intPoints" ;;
  intGoalsFor <-- get team "intGoalsFor" ;;
  intGoalsAgainst <-- get team "intGoalsAgainst" ;;
  intGoalDifference <-- get team "intGoalDifference" ;;
  strForm <-- get team "strForm" ;;
  Ret {| position := parseIntOr intRank (Z.of_nat index + 1);
         team := {| ref_id := idTeam; ref_name := strTeam; ref_shortName := strTeam;
                    ref_tla := tla; ref_crest := Js.or strBadge defaultBadge |};
         playedGames := parseIntOr intPlayed 0;
         won := parseIntOr intWin 0;
         draw := parseIntOr intDraw 0;
         lost := parseIntOr intLoss 0;
         points := parseIntOr intPoints 0;
         goalsFor := parseIntOr intGoalsFor 0;
         goalsAgainst := parseIntOr intGoalsAgainst 0;
         goalDifference :=
           parseIntOr intGoalDifference
             (parseIntOr intGoalsFor 0 - parseIntOr intGoalsAgainst 0);
         form := Js.or strForm (VStr "N/A") |}.

(** *** Mock standings of the normaliser *)

(** A row of [mockTables]: its team carries no [id] and no [shortName]. *)
Definition mockRow (position : Z) (name tla slug : string)
    (playedGames won draw lost points goalsFor goalsAgainst goalDifference : Z)
    (form : string) : StandingsRow :=
  {| position := position;
     team := {| ref_id := VUndefined; ref_name := VStr name; ref_shortName := VUndefined;
                ref_tla := VStr tla; ref_crest := badge slug |};
     playedGames := playedGames; won := won; draw := draw; lost := lost;
     points := points; goalsFor := goalsFor; goalsAgainst := goalsAgainst;
     goalDifference := goalDifference; form := VStr form |}.

Definition mockTables : list (string * list (string * list StandingsRow)) :=
  [("PL",
     [("2024-2025",
       [mockRow 1 "Liverpool" "LIV" "liverpool" 38 25 9 4 84 86 41 45 "DLDLW";
        mockRow 2 "Arsenal" "ARS" "arsenal" 38 20 14 4 74 69 34 35 "WWDLD";
        mockRow 3 "Manchester City" "MCI" "man_city" 38 21 8 9 71 72 44 28 "WWDWW";
        mockRow 4 "Chelsea" "CHE" "chelsea" 38 20 9 9 69 64 43 21 "WWLWW";
        mockRow 5 "Newcastle United" "NEW" "newcastle" 38 20 6 12 66 68 47 21 "LLWDW"]);
      ("2023-2024",
       [mockRow 1 "Manchester City" "MCI" "man_city" 38 28 7 3 91 96 34 62 "WWWWW";
        mockRow 2 "Arsenal" "ARS" "arsenal" 38 28 5 5 89 91 29 62 "WWWWW";
        mockRow 3 "Liverpool" "LIV" "liverpool" 38 24 10 4 82 86 41 45 "WDWDL";
        mockRow 4 "Aston Villa" "AVL" "aston_villa" 38 20 8 10 68 76 61 15 "LDLDW";
        mockRow 5 "Tottenham" "TOT" "tottenham" 38 20 6 12 66 74 61 13 "WLWLL"]);
      ("2022-2023",
       [mockRow 1 "Manchester City" "MCI" "man_city" 38 28 5 5 89 94 33 61 "LDWWW";
        mockRow 2 "Arsenal" "ARS" "arsenal" 38 26 6 6 84 88 43 45 "WLLWW";
        mockRow 3 "Manchester United" "MUN" "man_united" 38 23 6 9 75 58 43 15 "WWWWL";
        mockRow 4 "Newcastle United" "NEW" "newcastle" 38 19 14 5 71 68 33 35 "DDWDL";
        mockRow 5 "Liverpool" "LIV" "liverpool" 38 19 10 9 67 75 47 28 "DDWWW"])]);
   ("PD",
     [("2024-2025",
       [mockRow 1 "Real Madrid" "RMA" "real_madrid" 38 30 6 2 96 89 24 65 "WWWWW";
        mockRow 2 "Barcelona" "BAR" "barcelona" 38 28 7 3 91 85 30 55 "WDWWL";
        mockRow 3 "Atletico Madrid" "ATM" "atletico_madrid" 38 25 8 5 83 72 38 34 "WDWLW";
        mockRow 4 "Real Sociedad" "RSO" "real_sociedad" 38 20 10 8 70 65 45 20 "WWDLD";
        mockRow 5 "Athletic Bilbao" "ATH" "athletic_bilbao" 38 19 13 6 70 61 37 24 "DWDWW"]);
      ("2023-2024",
       [mockRow 1 "Real Madrid" "RMA" "real_madrid" 38 29 6 3 95 87 26 61 "WWWDW";
        mockRow 2 "Barcelona" "BAR" "barcelona" 38 27 7 4 85 79 32 47 "WDWWL";
        mockRow 3 "Girona" "GIR" "girona" 38 25 8 5 81 85 46 39 "WWLDW";
        mockRow 4 "Atletico Madrid" "ATM" "atletico_madrid" 38 24 8 6 76 70 43 27 "WDWLW";
        mockRow 5 "Athletic Bilbao" "ATH" "athletic_bilbao" 38 19 13 6 68 61 37 24 "DWDWW"]);
      ("2022-2023",
       [mockRow 1 "Barcelona" "BAR" "barcelona" 38 28 4 6 88 70 20 50 "WWWWL";
        mockRow 2 "Real Madrid" "RMA" "real_madrid" 38 24 6 8 78 75 36 39 "WLWWW";
        mockRow 3 "Atletico Madrid" "ATM" "atletico_madrid" 38 23 8 7 77 70 33 37 "WWDLW";
        mockRow 4 "Real Sociedad" "RSO" "real_sociedad" 38 20 11 7 71 51 35 16 "DWDLW";
        mockRow 5 "Villarreal" "VIL" "villarreal" 38 19 7 12 64 59 37 22 "WLWDL"])]);
   ("SA",
     [("2024-2025",
       [mockRow 1 "Inter Milan" "INT" "inter_milan" 38 29 7 2 94 89 22 67 "WWWWW";
        mockRow 2 "AC Milan" "MIL" "ac_milan" 38 26 8 4 86 76 31 45 "WDWWL";
        mockRow 3 "Juventus" "JUV" "juventus" 38 24 10 4 82 64 29 35 "DWDWW";
        mockRow 4 "Napoli" "NAP" "napoli" 38 23 8 7 77 74 42 32 "WWLDW";
        mockRow 5 "AS Roma" "ROM" "as_roma" 38 20 9 9 69 65 45 20 "WLWDL"]);
      ("2023-2024",
       [mockRow 1 "Inter Milan" "INT" "inter_milan" 38 28 7 3 91 89 22 67 "WWWWW";
        mockRow 2 "AC Milan" "MIL" "ac_milan" 38 25 8 5 83 76 31 45 "WDWWL";
        mockRow 3 "Juventus" "JUV" "juventus" 38 23 10 5 79 64 29 35 "DWDWW";
        mockRow 4 "Napoli" "NAP" "napoli" 38 22 8 8 74 74 42 32 "WWLDW";
        mockRow 5 "AS Roma" "ROM" "as_roma" 38 19 9 10 66 65 45 20 "WLWDL"]);
      ("2022-2023",
       [mockRow 1 "Napoli" "NAP" "napoli" 38 28 8 2 90 77 28 49 "WWWWW";
        mockRow 2 "Lazio" "LAZ" "lazio" 38 22 7 9 73 60 35 25 "WLWWL";
        mockRow 3 "Inter Milan" "INT" "inter_milan" 38 23 4 11 73 71 42 29 "LWWDW";
        mockRow 4 "AC Milan" "MIL" "ac_milan" 38 20 12 6 72 57 40 17 "DDWWL";
        mockRow 5 "Atalanta" "ATA" "atalanta" 38 19 10 9 67 64 42 22 "WDWLW"])]);
   ("BL1",
     [("2024-2025",
       [mockRow 1 "Bayern Munich" "BAY" "bayern_munich" 34 26 6 2 84 94 27 67 "WWWWW";
        mockRow 2 "Borussia Dortmund" "BVB" "borussia_dortmund" 34 22 8 4 74 73 38 35 "WDWWL";
        mockRow 3 "RB Leipzig" "RBL" "rb_leipzig" 34 20 9 5 69 68 37 31 "DWDWW";
        mockRow 4 "Bayer Leverkusen" "B04" "bayer_leverkusen" 34 19 10 5 67 65 37 28 "WWLDW";
        mockRow 5 "Eintracht Frankfurt" "SGE" "eintracht_frankfurt" 34 18 7 9 61 58 44 14 "WLWDL"]);
      ("2023-2024",
       [mockRow 1 "Bayer Leverkusen" "B04" "bayer_leverkusen" 34 28 6 0 90 89 24 65 "WWWWW";
        mockRow 2 "Bayern Munich" "BAY" "bayern_munich" 34 24 8 2 80 94 45 49 "WDWWL";
        mockRow 3 "VfB Stuttgart" "VFB" "vfb_stuttgart" 34 23 4 7 73 78 39 39 "WWLDW";
        mockRow 4 "RB Leipzig" "RBL" "rb_leipzig" 34 19 9 6 66 68 37 31 "DWDWW";
        mockRow 5 "Borussia Dortmund" "BVB" "borussia_dortmund" 34 18 9 7 63 68 42 26 "WLWDL"]);
      ("2022-2023",
       [mockRow 1 "Bayern Munich" "BAY" "bayern_munich" 34 24 6 4 78 92 38 54 "WWWWL";
        mockRow 2 "Borussia Dortmund" "BVB" "borussia_dortmund" 34 22 7 5 73 84 38 46 "WLWWW";
        mockRow 3 "RB Leipzig" "RBL" "rb_leipzig" 34 22 6 6 72 64 35 29 "DWDWW";
        mockRow 4 "Union Berlin" "FCU" "union_berlin" 34 17 13 4 64 51 33 18 "DDWLW";
        mockRow 5 "SC Freiburg" "SCF" "sc_freiburg" 34 17 10 7 61 51 40 11 "WDWLW"])]);
   ("FL1",
     [("2024-2025",
       [mockRow 1 "Paris Saint-Germain" "PSG" "psg" 34 27 6 1 87 89 35 54 "WWDWW";
        mockRow 2 "AS Monaco" "MON" "monaco" 34 22 9 3 75 68 34 34 "WDWWD";
        mockRow 3 "Marseille" "OM" "marseille" 34 20 8 6 68 63 38 25 "WWLDW";
        mockRow 4 "Lille" "LIL" "lille" 34 18 10 6 64 54 35 19 "LWWDW";
        mockRow 5 "Nice" "NIC" "nice" 34 17 11 6 62 40 25 15 "DDWWD"]);
      ("2023-2024",
       [mockRow 1 "Paris Saint-Germain" "PSG" "psg" 34 26 6 2 84 89 35 54 "WWDWW";
        mockRow 2 "AS Monaco" "MON" "monaco" 34 21 9 4 72 68 34 34 "WDWWD";
        mockRow 3 "Brest" "BRE" "brest" 34 18 11 5 65 56 38 18 "DWDWL";
        mockRow 4 "Lille" "LIL" "lille" 34 18 10 6 64 54 35 19 "LWWDW";
        mockRow 5 "Nice" "NIC" "nice" 34 17 11 6 62 40 25 15 "DDWWD"]);
      ("2022-2023",
       [mockRow 1 "Paris Saint-Germain" "PSG" "psg" 38 29 6 3 85 89 31 58 "WWWWL";
        mockRow 2 "RC Lens" "RCL" "rc_lens" 38 25 7 6 84 68 35 33 "WLWWW";
        mockRow 3 "Marseille" "OM" "marseille" 38 24 9 5 73 63 34 29 "WWLDW";
        mockRow 4 "Rennes" "SRE" "rennes" 38 20 8 10 68 68 40 28 "WDWLW";
        mockRow 5 "Lille" "LIL" "lille" 38 19 10 9 67 54 35 19 "LWWDW"])])].

(** [getMockStandingsData]: the season asked for, else "2024-2025", else no
    row. *)
Definition getMockStandingsData (competition : string) (season : option string)
  : StandingsResult :=
  let competitionType :=
    if String.eqb competition "CL" || String.eqb competition "EL"
    then "GROUP_STAGE" else "REGULAR_SEASON" in
  let seasonData :=
    match assoc competition mockTables with
    | Some seasons =>
        match assoc (seasonOrDefault season) seasons with
        | Some rows => rows
        | None => default [] (assoc "2024-2025" seasons)
        end
    | None => []
    end in
  {| standings :=
       [{| stage := competitionType;
           groupType := if String.eqb competitionType "GROUP_STAGE"
                        then "GROUP" else "TOTAL";
           table := seasonData |}];
     competitionName := getCompetitionName competition;
     competitionCode := competition;
     season := seasonOrDefault season |}.

Definition standingsEndpoint (competition : string) (season : option string) : string :=
  "/lookuptable.php?l=" +:+ getLeagueId competition +:+
  match seasonGiven season with
  | Some s => "&s=" +:+ s
  | None => ""
  end.

Definition fetchStandings (competition : string) (season : option string)
    (e : FetchEnv) : Api StandingsResult :=
  payload <- fetchData (standingsEndpoint competition season) e ;;
  tbl <- lift (get payload "table") ;;
  match isArray tbl with
  | Some rows =>
      table <- lift (mapi standingsRowOf rows) ;;
      ret {| standings :=
               [{| stage := "REGULAR_SEASON"; groupType := "TOTAL"; table := table |}];
             competitionName := getCompetitionName competition;
             competitionCode := competition;
             season := seasonOrDefault season |}
  | None => ret (getMockStandingsData competition season)
  end.

(** ** Matches *)

(** [{id, name, shortName, tla, crest}] of one side of an event. *)
Definition sideOf (event : value) (idKey nameKey badgeKey : string) : outcome TeamRef :=
  idv <-- get event idKey ;;
  namev <-- get event nameKey ;;
  tla <-- tlaOf namev ;;
  badgev <-- get event badgeKey ;;
  Ret {| ref_id := idv; ref_name := namev; ref_shortName := namev; ref_tla := tla;
         ref_crest := Js.or badgev defaultBadge |}.

(** [v ? parseInt(v) : null]. *)
Definition parsedOrNull (v : value) : option number :=
  if truthy v then Some (numberOf (parseInt v)) else None.

(** The callback of [events.map], the same in [fetchMatches] and in
    [fetchCompetitionMatches] but for the competition name. *)
Definition matchOf (competitionLabel : string) (season : option string)
    (event : value) : outcome Match :=
  idEvent <-- get event "idEvent" ;;
  homeSide <-- sideOf event "idHomeTeam" "strHomeTeam" "strHomeTeamBadge" ;;
  awaySide <-- sideOf event "idAwayTeam" "strAwayTeam" "strAwayTeamBadge" ;;
  dateEvent <-- get event "dateEvent" ;;
  strTime <-- get event "strTime" ;;
  strStatus <-- get event "strStatus" ;;
  intHomeScore <-- get event "intHomeScore" ;;
  intAwayScore <-- get event "intAwayScore" ;;
  strSeason <-- get event "strSeason" ;;
  intRound <-- get event "intRound" ;;
  Ret {| matchId := idEvent;
         homeTeam := homeSide; awayTeam := awaySide;
         utcDate := toString dateEvent +:+ "T" +:+
                    toString (Js.or strTime (VStr "15:00:00")) +:+ "Z";
         status := if eqStr strStatus "Match Finished" then "FINISHED"
                   else if eqStr strStatus "Not Started" then "SCHEDULED"
                   else "IN_PLAY";
         home := parsedOrNull intHomeScore;
         away := parsedOrNull intAwayScore;
         matchCompetition := competitionLabel;
         matchSeason := Js.or strSeason (VStr (seasonOrDefault season));
         matchday := parsedOrNull intRound |}.

Definition noMatches : MatchesResult := {| matches := []; matchCount := 0 |}.

(** [fetchMatches]: always the Premier League's next events. *)
Definition fetchMatches (season : option string) (e : FetchEnv) : Api MatchesResult :=
  payload <- fetchData "/eventsnextleague.php?id=4328" e ;;
  events <- lift (get payload "events") ;;
  if truthy events then
    match isArray events with
    | Some l =>
        ms <- lift (mapM (matchOf "Premier League" season) l) ;;
        ret {| matches := ms; matchCount := length ms |}
    | None => raise (TypeError "data.events.map is not a function")
    end
  else ret noMatches.

Definition pastEventsEndpoint (competition : string) : string :=
  "/eventspastleague.php?id=" +:+ getLeagueId competition.

Definition fetchCompetitionMatches (competition : string) (season : option string)
    (e : FetchEnv) : Api MatchesResult :=
  payload <- fetchData (pastEventsEndpoint competition) e ;;
  eventsv <- lift (get payload "events") ;;
  match isArray eventsv with
  | Some all =>
      events <- lift
        match seasonGiven season with
        | Some s =>
            filterM (fun event => strSeason <-- get event "strSeason" ;;
                                  Ret (eqStr strSeason s)) all
        | None => Ret all
        end ;;
      ms <- lift (mapM (matchOf (getCompetitionName competition) season) events) ;;
      ret {| matches := ms; matchCount := length ms |}
  | None => ret noMatches
  end.

(** ** Teams *)

(** [parseInt(v) || null]. *)
Definition parsedYear (v : value) : option Z :=
  match parseInt v with
  | Some n => if n =? 0 then None else Some n
  | None => None
  end.

(** The callback of [data.teams.map]. *)
Definition teamOfSearch (t : value) : outcome Team :=
  idTeam <-- get t "idTeam" ;;
  strTeam <-- get t "strTeam" ;;
  strTeamShort <-- get t "strTeamShort" ;;
  tla <-- (if truthy strTeamShort then Ret strTeamShort else tlaOf strTeam) ;;
  strBadge <-- get t "strBadge" ;;
  strTeamBadge <-- get t "strTeamBadge" ;;
  intFormedYear <-- get t "intFormedYear" ;;
  strStadium <-- get t "strStadium" ;;
  strWebsite <-- get t "strWebsite" ;;
  strLocation <-- get t "strLocation" ;;
  strCountry <-- get t "strCountry" ;;
  Ret {| team_id := idTeam; team_name := strTeam;
         team_shortName := Js.or strTeamShort strTeam;
         team_tla := tla;
         team_crest := Js.or strBadge (Js.or strTeamBadge defaultBadge);
         founded := parsedYear intFormedYear;
         venue := Js.or strStadium (VStr "Unknown Stadium");
         website := Js.or strWebsite (VStr "");
         location := Js.or strLocation (Js.or strCountry (VStr "")) |}.

(** The callback of [data.table.map] in [fetchTeams]. *)
Definition teamOfTable (t : value) : outcome Team :=
  idTeam <-- get t "idTeam" ;;
  strTeam <-- get t "strTeam" ;;
  tla <-- tlaOf strTeam ;;
  strBadge <-- get t "strBadge" ;;
  Ret {| team_id := idTeam; team_name := strTeam; team_shortName := strTeam;
         team_tla := tla; team_crest := Js.or strBadge defaultBadge;
         founded := None; venue := VStr "Unknown Stadium"; website := VStr "";
         location := VStr "" |}.

(** *** Mock teams of the normaliser *)

Definition mockTeamRecord (id name shortName tla slug : string) (founded : Z)
    (venue website location : string) : Team :=
  {| team_id := VStr id; team_name := VStr name; team_shortName := VStr shortName;
     team_tla := VStr tla; team_crest := badge slug; founded := Some founded;
     venue := VStr venue; website := VStr website; location := VStr location |}.

Definition mockTeams : list (string * list Team) :=
  [("PL",
     [mockTeamRecord "133604" "Arsenal" "Arsenal" "ARS" "arsenal" 1886
        "Emirates Stadium" "www.arsenal.com" "London, England";
      mockTeamRecord "133612" "Chelsea" "Chelsea" "CHE" "chelsea" 1905
        "Stamford Bridge" "www.chelseafc.com" "London, England";
      mockTeamRecord "133602" "Liverpool" "Liverpool" "LIV" "liverpool" 1892
        "Anfield" "www.liverpoolfc.com" "Liverpool, England";
      mockTeamRecord "133613" "Manchester City" "Man City" "MCI" "man_city" 1880
        "Etihad Stadium" "www.mancity.com" "Manchester, England";
      mockTeamRecord "133614" "Manchester United" "Man United" "MUN" "man_united" 1878
        "Old Trafford" "www.manutd.com" "Manchester, England";
      mockTeamRecord "133615" "Tottenham Hotspur" "Tottenham" "TOT" "tottenham" 1882
        "Tottenham Hotspur Stadium" "www.tottenhamhotspur.com" "London, England";
      mockTeamRecord "133599" "Wolverhampton Wanderers" "Wolves" "WOL" "wolves" 1877
        "Molineux Stadium" "www.wolves.co.uk" "Wolverhampton, England";
      mockTeamRecord "134355" "Brentford" "Brentford" "BRE" "brentford" 1889
        "Brentford Community Stadium" "www.brentfordfc.com" "London, England";
      mockTeamRecord "133616" "Newcastle United" "Newcastle" "NEW" "newcastle" 1892
        "St. James' Park" "www.nufc.co.uk" "Newcastle, England";
      mockTeamRecord "133617" "Aston Villa" "Aston Villa" "AVL" "aston_villa" 1874
        "Villa Park" "www.avfc.co.uk" "Birmingham, England"]);
   ("PD",
     [mockTeamRecord "134301" "Real Madrid" "Real Madrid" "RMA" "real_madrid" 1902
        "Santiago Bernabéu" "www.realmadrid.com" "Madrid, Spain";
      mockTeamRecord "134302" "Barcelona" "Barcelona" "BAR" "barcelona" 1899
        "Camp Nou" "www.fcbarcelona.com" "Barcelona, Spain";
      mockTeamRecord "134303" "Atletico Madrid" "Atletico" "ATM" "atletico_madrid" 1903
        "Wanda Metropolitano" "www.atleticodemadrid.com" "Madrid, Spain";
      mockTeamRecord "134304" "Sevilla" "Sevilla" "SEV" "sevilla" 1890
        "Ramón Sánchez Pizjuán" "www.sevillafc.es" "Sevilla, Spain";
      mockTeamRecord "134305" "Valencia" "Valencia" "VAL" "valencia" 1919
        "Mestalla" "www.valenciacf.com" "Valencia, Spain"]);
   ("SA",
     [mockTeamRecord "135301" "Inter Milan" "Inter" "INT" "inter_milan" 1908
        "San Siro" "www.inter.it" "Milan, Italy";
      mockTeamRecord "135302" "AC Milan" "Milan" "MIL" "ac_milan" 1899
        "San Siro" "www.acmilan.com" "Milan, Italy";
      mockTeamRecord "135303" "Juventus" "Juventus" "JUV" "juventus" 1897
        "Allianz Stadium" "www.juventus.com" "Turin, Italy";
      mockTeamRecord "135304" "Napoli" "Napoli" "NAP" "napoli" 1926
        "Stadio Diego Armando Maradona" "www.sscnapoli.it" "Naples, Italy";
      mockTeamRecord "135305" "AS Roma" "Roma" "ROM" "as_roma" 1927
        "Stadio Olimpico" "www.asroma.com" "Rome, Italy"]);
   ("BL1",
     [mockTeamRecord "136301" "Bayern Munich" "Bayern" "BAY" "bayern_munich" 1900
        "Allianz Arena" "www.fcbayern.com" "Munich, Germany";
      mockTeamRecord "136302" "Borussia Dortmund" "Dortmund" "BVB" "borussia_dortmund" 1909
        "Signal Iduna Park" "www.bvb.de" "Dortmund, Germany";
      mockTeamRecord "136303" "RB Leipzig" "Leipzig" "RBL" "rb_leipzig" 2009
        "Red Bull Arena" "www.rbleipzig.com" "Leipzig, Germany";
      mockTeamRecord "136304" "Bayer Leverkusen" "Leverkusen" "B04" "bayer_leverkusen" 1904
        "BayArena" "www.bayer04.de" "Leverkusen, Germany";
      mockTeamRecord "136305" "Eintracht Frankfurt" "Frankfurt" "SGE" "eintracht_frankfurt" 1899
        "Deutsche Bank Park" "www.eintracht.de" "Frankfurt, Germany"]);
   ("FL1",
     [mockTeamRecord "137301" "Paris Saint-Germain" "PSG" "PSG" "psg" 1970
        "Parc des Princes" "www.psg.fr" "Paris, France";
      mockTeamRecord "137302" "AS Monaco" "Monaco" "MON" "monaco" 1924
        "Stade Louis II" "www.asmonaco.com" "Monaco";
      mockTeamRecord "137303" "Marseille" "Marseille" "OM" "marseille" 1899
        "Orange Vélodrome" "www.om.fr" "Marseille, France";
      mockTeamRecord "137304" "Lille" "Lille" "LIL" "lille" 1944
        "Stade Pierre-Mauroy" "www.losc.fr" "Lille, France";
      mockTeamRecord "137305" "Nice" "Nice" "NIC" "nice" 1904
        "Allianz Riviera" "www.ogcnice.com" "Nice, France"])].

(** [mockTeams[competition] || mockTeams['PL']]. *)
Definition getMockTeamsForCompetition (competition : string) : list Team :=
  match assoc competition mockTeams with
  | Some l => l
  | None => default [] (assoc "PL" mockTeams)
  end.

(** The three endpoints [fetchTeams] probes, in order. *)
Definition teamEndpoints (competition : string) (season : option string) : list string :=
  ["/search_all_teams.php?l=" +:+ getLeagueName competition;
   "/lookuptable.php?l=" +:+ getLeagueId competition +:+ "&s=" +:+ seasonOrDefault season;
   "/search_all_teams.php?s=Soccer&c=" +:+ getCountryForCompetition competition].

(** The teams one payload contributes. *)
Definition teamsOfPayload (payload : value) : outcome (list Team) :=
  teamsv <-- get payload "teams" ;;
  match isArray teamsv with
  | Some l => mapM teamOfSearch l
  | None =>
      tablev <-- get payload "table" ;;
      match isArray tablev with
      | Some l => mapM teamOfTable l
      | None => Ret []
      end
  end.

(** One turn of the loop: [allTeams] grows by what the endpoint gives; an
    exception leaves it as it was. *)
Definition probe (allTeams : list Team) (endpoint : string) (e : FetchEnv)
  : Api (list Team) :=
  tryCatch
    (payload <- fetchData endpoint e ;;
     found <- lift (teamsOfPayload payload) ;;
     ret (allTeams ++ found)%list)
    (fun _ => ret allTeams).

(** [t.id === team.id] for the elements at positions [j] and [i] of one
    array: an array or object is equal to itself only. *)
Definition sameId (j : nat) (t : Team) (i : nat) (team : Team) : bool :=
  if isReference (team_id team) then Nat.eqb j i
  else strictEq (team_id t) (team_id team).

(** [Array.prototype.findIndex]; [None] is -1. *)
Fixpoint findIndexFrom {A} (p : nat -> A -> bool) (j : nat) (l : list A) : option nat :=
  match l with
  | [] => None
  | x :: r => if p j x then Some j else findIndexFrom p (S j) r
  end.

Definition findIndex {A} (p : nat -> A -> bool) (l : list A) : option nat :=
  findIndexFrom p 0 l.

(** [Array.prototype.filter] with the index. *)
Fixpoint filteriFrom {A} (p : nat -> A -> bool) (i : nat) (l : list A) : list A :=
  match l with
  | [] => []
  | x :: r => if p i x then x :: filteriFrom p (S i) r else filteriFrom p (S i) r
  end.

(** [allTeams.filter((team, index, self) =>
      index === self.findIndex(t => t.id === team.id))]. *)
Definition uniqueById (allTeams : list Team) : list Team :=
  filteriFrom
    (fun index team =>
       bool_decide (findIndex (fun j t => sameId j t index team) allTeams = Some index))
    0 allTeams.

(** [existingIds.has(id)] for the set of the ids of [l]. *)
Definition hasId (l : list Team) (idv : value) : bool :=
  existsb (fun t => strictEq (team_id t) idv) l.

(** The part of [fetchTeams] after the loop. *)
Definition completeTeams (competition : string) (allTeams : list Team) : TeamsResult :=
  let uniqueTeams := uniqueById allTeams in
  let uniqueTeams' :=
    if (length uniqueTeams <? 10)%nat then
      let mock := getMockTeamsForCompetition competition in
      let additionalTeams :=
        List.filter (fun t => negb (hasId uniqueTeams (team_id t))) mock in
      (uniqueTeams ++ additionalTeams)%list
    else uniqueTeams in
  {| teams := uniqueTeams'; teamCount := length uniqueTeams' |}.

(** The [for ... of endpoints] loop. *)
Fixpoint probeAll (allTeams : list Team) (steps : list (string * FetchEnv))
  : Api (list Team) :=
  match steps with
  | [] => ret allTeams
  | (endpoint, e) :: r => all' <- probe allTeams endpoint e ;; probeAll all' r
  end.

(** [e1], [e2], [e3] are the inputs of the three [fetchData] calls. *)
Definition fetchTeams (competition : string) (season : option string)
    (e1 e2 e3 : FetchEnv) : Api TeamsResult :=
  allTeams <- probeAll [] (zip (teamEndpoints competition season) [e1; e2; e3]) ;;
  ret (completeTeams competition allTeams).

(** ** Analytics *)

Record AnalyticsSummary : Type :=
  { totalGoals : Z;
    avgGoalsPerMatch : Q;
    topScorerGoals : Z;
    topScoringTeam : value;
    topTeams : list StandingsRow;
    recentMatches : list Match;
    leagueStats : list (string * Z) }.

(** The summary of the [catch] block. *)
Definition emptySummary : AnalyticsSummary :=
  {| totalGoals := 0; avgGoalsPerMatch := 0%Q; topScorerGoals := 0;
     topScoringTeam := VStr "Unknown"; topTeams := []; recentMatches := [];
     leagueStats := [] |}.

(** [Promise.all] of two calls: both are started, the second also when the
    first fails; it rejects when either does.  The two feeds use different
    cache keys, so running one after the other gives what interleaving
    them gives. *)
Definition promiseAll2 {A B} (m1 : Api A) (m2 : Api B) : Api (A * B) :=
  fun api =>
    let '(r1, api1, log1) := m1 api in
    let '(r2, api2, log2) := m2 api1 in
    (match r1, r2 with
     | Ret a, Ret b => Ret (a, b)
     | Raise err, _ => Raise err
     | Ret _, Raise err => Raise err
     end, api2, (log1 ++ log2)%list).

(** [standings.standings?.[0]?.table || []]. *)
Definition firstTable (s : StandingsResult) : list StandingsRow :=
  match standings s with
  | g :: _ => table g
  | [] => []
  end.

(** [Math.round]. *)
Definition mathRound (q : Q) : Z := Qfloor (q + (1 # 2))%Q.

Section Analytics.

(** [x.toFixed(1)] as a number of tenths.  The quotient is an exact
    rational here; how the host rounds it is left to [toFixed1]. *)
Variable toFixed1 : Q -> Z.

(** [parseFloat] of the text [toFixed(1)] printed. *)
Definition tenths (n : Z) : Q := Qred (n # 10).

Definition summarize (standingsTable : list StandingsRow) (finished : list Match)
  : AnalyticsSummary :=
  let totalGoals := fold_left (fun sum row => sum + goalsFor row) standingsTable 0 in
  let totalMatchesPlayed : Q :=
    (inject_Z (fold_left (fun sum row => sum + playedGames row)%Z standingsTable 0%Z) / 2)%Q in
  let avgGoalsPerMatch :=
    if negb (Qle_bool totalMatchesPlayed 0)
    then tenths (toFixed1 (inject_Z totalGoals / totalMatchesPlayed)%Q)
    else tenths 0 in
  let topScoringTeamData :=
    fold_left
      (fun best row =>
         if goalsFor row >? match best with Some b => goalsFor b | None => 0 end
         then Some row else best)
      standingsTable None in
  let totalWins := fold_left (fun sum row => sum + won row) standingsTable 0 in
  let totalDraws := fold_left (fun sum row => sum + draw row) standingsTable 0 in
  {| totalGoals := totalGoals;
     avgGoalsPerMatch := avgGoalsPerMatch;
     topScorerGoals := match topScoringTeamData with Some b => goalsFor b | None => 0 end;
     topScoringTeam :=
       match topScoringTeamData with
       | Some b => Js.or (ref_name (team b)) (VStr "Unknown")
       | None => VStr "Unknown"
       end;
     topTeams := standingsTable;
     recentMatches := finished;
     leagueStats :=
       [("Goals", totalGoals); ("Matches", mathRound totalMatchesPlayed);
        ("Wins", totalWins); ("Draws", totalDraws)] |}.

(** [e1] feeds the standings call, [e2] the matches call. *)
Definition fetchAnalyticsData (competition : string) (season : option string)
    (e1 e2 : FetchEnv) : Api AnalyticsSummary :=
  tryCatch
    (feeds <- promiseAll2 (fetchStandings competition season e1)
                          (fetchCompetitionMatches competition season e2) ;;
     let '(standingsResult, matchesResult) := feeds in
     let standingsTable := firstTable standingsResult in
     let finished :=
       take 100 (List.filter (fun m => String.eqb (status m) "FINISHED")
                             (matches matchesResult)) in
     ret (summarize standingsTable finished))
    (fun _ => ret emptySummary).

End Analytics.

(** A host rounding for examples: half away from zero on the exact
    quotient. *)
Definition halfUpTenths (q : Q) : Z :=
  if Qle_bool 0 q then Qfloor (10 * q + (1 # 2))%Q
  else - Qfloor (10 * - q + (1 # 2))%Q.

(** ** The tab manager *)

(** What [setTabData] receives. *)
Inductive TabData : Type :=
| MatchesWithMessage (ms : list Match) (message : string)
| MatchesData (r : MatchesResult)
| StandingsData (r : StandingsResult)
| TeamsData (r : TeamsResult)
| UnknownTabData (error : bool) (message : string)
| ErrorData (error : bool) (errorMessage userFriendlyMessage : string)
            (ms : list Match) (ts : list Team) (ss : list StandingsGroup).

Record Toast : Type :=
  { title : string; description : string; variant : option string }.

(** What the controller does to the outside, in order: the three injected
    setters, the toast, and the requests of its API object.  The setters
    are state setters of the page; they do not reach the manager object. *)
Inductive Effect : Type :=
| SetActiveTab (tab : string)
| SetLoading (loading : bool)
| SetTabData (d : TabData)
| ShowToast (t : Toast)
| Request (url : string).

Record TabManager : Type := { activeTab : string; api : FootballAPI }.

(** The constructor; the setters are the effects above. *)
Definition newTabManager (activeTab : string) : TabManager :=
  {| activeTab := activeTab; api := newFootballAPI |}.

Definition loadLiveMatches (season : option string) (e : FetchEnv) : Api TabData :=
  r <- fetchMatches season e ;;
  let liveMatches :=
    List.filter (fun m => String.eqb (status m) "IN_PLAY" || String.eqb (status m) "LIVE")
                (matches r) in
  if (length liveMatches =? 0)%nat then
    ret (MatchesWithMessage (matches r)
           "No live matches at the moment - showing recent matches")
  else ret (MatchesData {| matches := liveMatches; matchCount := matchCount r |}).

Definition loadLeagueStandings (competition : string) (season : option string)
    (e : FetchEnv) : Api TabData :=
  r <- fetchStandings competition season e ;; ret (StandingsData r).

Definition loadTeamStatistics (competition : string) (season : option string)
    (e1 e2 e3 : FetchEnv) : Api TabData :=
  r <- fetchTeams competition season e1 e2 e3 ;; ret (TeamsData r).

Definition loadRecentResults (competition : string) (season : option string)
    (e : FetchEnv) : Api TabData :=
  r <- fetchCompetitionMatches competition season e ;;
  let finishedMatches :=
    List.filter (fun m => String.eqb (status m) "FINISHED") (matches r) in
  ret (MatchesData {| matches := finishedMatches; matchCount := matchCount r |}).

Definition tabNames : list (string * string) :=
  [("live-matches", "Live matches"); ("league-tables", "League standings");
   ("team-stats", "Teams information"); ("recent-results", "Recent results")].

Definition getTabDisplayName (tabId : string) : string :=
  default "Data" (assoc tabId tabNames).

Definition successToast (tabId : string) : Toast :=
  {| title := "Data Loaded Successfully";
     description := getTabDisplayName tabId +:+ " loaded from TheSportsDB API.";
     variant := None |}.

Definition showSuccessNotification (tabId : string) : list Effect :=
  [ShowToast (successToast tabId)].

Definition errorPayload : TabData :=
  ErrorData true "Failed to load data from TheSportsDB API"
    "Unable to connect to sports data service. This may be due to API access restrictions or network issues."
    [] [] [].

Definition failureToast : Toast :=
  {| title := "Unable to load sports data";
     description := "There was an issue loading data from the sports API. Please try again.";
     variant := Some "destructive" |}.

Definition handleTabError (err : error) : list Effect :=
  [ShowToast failureToast; SetTabData errorPayload].

Definition unknownTabData : TabData := UnknownTabData true "Unknown tab selected".

(** The [switch] on [tabId]. *)
Definition loadTab (tabId competition : string) (season : option string)
    (e1 e2 e3 : FetchEnv) : Api TabData :=
  if String.eqb tabId "live-matches" then loadLiveMatches season e1
  else if String.eqb tabId "league-tables" then loadLeagueStandings competition season e1
  else if String.eqb tabId "team-stats" then loadTeamStatistics competition season e1 e2 e3
  else if String.eqb tabId "recent-results" then loadRecentResults competition season e1
  else ret unknownTabData.

(** [switchTab]: the manager afterwards and the effects, in order.  [e1],
    [e2], [e3] are the inputs of the [fetchData] calls the load makes. *)
Definition switchTab (tm : TabManager) (tabId competition : string)
    (season : option string) (e1 e2 e3 : FetchEnv) : TabManager * list Effect :=
  let before := [SetActiveTab tabId; SetLoading true] in
  let '(r, api', urls) := loadTab tabId competition season e1 e2 e3 (api tm) in
  let completion :=
    match r with
    | Ret d => SetTabData d :: showSuccessNotification tabId
    | Raise err => handleTabError err
    end in
  ({| activeTab := activeTab tm; api := api' |},
   (before ++ map Request urls ++ completion ++ [SetLoading false])%list).

Definition getCurrentTab (tm : TabManager) : string := activeTab tm.

Definition isTabActive (tm : TabManager) (tabId : string) : bool :=
  String.eqb (activeTab tm) tabId.

(** The four tabs the [switch] knows. *)
Definition knownTabs : list string :=
  ["live-matches"; "league-tables"; "team-stats"; "recent-results"].

(** One [switchTab] call with its inputs, and a session of such calls on
    the same manager. *)
Record SwitchCall : Type :=
  { callTab : string; callCompetition : string; callSeason : option string;
    callEnv1 : FetchEnv; callEnv2 : FetchEnv; callEnv3 : FetchEnv }.

Definition switchCall (tm : TabManager) (c : SwitchCall) : TabManager * list Effect :=
  switchTab tm (callTab c) (callCompetition c) (callSeason c)
            (callEnv1 c) (callEnv2 c) (callEnv3 c).

Definition runSwitches (tm : TabManager) (calls : list SwitchCall) : TabManager :=
  fold_left (fun m c => fst (switchCall m c)) calls tm.

(** ** Vocabulary of the properties *)

(** The value of property [p] of a source row: [undefined] when the row
    does not have it. *)
Definition prop (src : value) (p : string) : value :=
  match src with
  | VObj fields => default VUndefined (assoc p fields)
  | _ => VUndefined
  end.

Definition isLoadingOff (ev : Effect) : bool :=
  match ev with SetLoading false => true | _ => false end.

(** The call goes to the provider and fails. *)
Definition liveFailure (api : FootballAPI) (endpoint : string) (e : FetchEnv) : Prop :=
  fresh api endpoint (checkTime e) = false /\ liveFails (response e) = true.


(** De-duplication in the words of the specification: going through the
    list, a team is dropped when an earlier team has its identifier. *)
Fixpoint keepFirst (seen : list value) (l : list Team) : list Team :=
  match l with
  | [] => []
  | t :: r =>
      if existsb (fun s => strictEq s (team_id t)) seen
      then keepFirst (seen ++ [team_id t]) r
      else t :: keepFirst (seen ++ [team_id t]) r
  end.


(** The sum of a column of the standings table. *)
Fixpoint total (column : StandingsRow -> Z) (rows : list StandingsRow) : Z :=
  match rows with
  | [] => 0
  | r :: rest => column r + total column rest
  end.

(** ** Top scorers *)

Record TopScorer : Type :=
  { scorer_name : value; scorer_goals : Z; scorer_team : value;
    scorer_nationality : value }.

Definition mockScorer (name : string) (goals : Z) (team nationality : string)
  : TopScorer :=
  {| scorer_name := VStr name; scorer_goals := goals; scorer_team := VStr team;
     scorer_nationality := VStr nationality |}.

Definition mockScorers : list (string * list (string * list TopScorer)) :=
  [("PL",
     [("2024-2025",
       [mockScorer "Erling Haaland" 14 "Manchester City" "Norway";
        mockScorer "Mohamed Salah" 12 "Liverpool" "Egypt";
        mockScorer "Cole Palmer" 11 "Chelsea" "England";
        mockScorer "Alexander Isak" 9 "Newcastle United" "Sweden";
        mockScorer "Chris Wood" 8 "Nottingham Forest" "New Zealand";
        mockScorer "Bryan Mbeumo" 8 "Brentford" "Cameroon"]);
      ("2023-2024",
       [mockScorer "Erling Haaland" 27 "Manchester City" "Norway";
        mockScorer "Cole Palmer" 22 "Chelsea" "England";
        mockScorer "Alexander Isak" 21 "Newcastle United" "Sweden";
        mockScorer "Ollie Watkins" 19 "Aston Villa" "England";
        mockScorer "Mohamed Salah" 18 "Liverpool" "Egypt";
        mockScorer "Dominic Solanke" 18 "Bournemouth" "England"])]);
   ("PD",
     [("2024-2025",
       [mockScorer "Robert Lewandowski" 16 "Barcelona" "Poland";
        mockScorer "Kylian Mbappé" 11 "Real Madrid" "France";
        mockScorer "Raphinha" 10 "Barcelona" "Brazil";
        mockScorer "Ayoze Pérez" 8 "Villarreal" "Spain";
        mockScorer "Vinícius Jr." 8 "Real Madrid" "Brazil";
        mockScorer "Antoine Griezmann" 7 "Atletico Madrid" "France"])]);
   ("SA",
     [("2024-2025",
       [mockScorer "Marcus Thuram" 12 "Inter Milan" "France";
        mockScorer "Mateo Retegui" 11 "Atalanta" "Italy";
        mockScorer "Moise Kean" 9 "Fiorentina" "Italy";
        mockScorer "Lautaro Martínez" 8 "Inter Milan" "Argentina";
        mockScorer "Dusan Vlahovic" 8 "Juventus" "Serbia";
        mockScorer "Romelu Lukaku" 7 "Napoli" "Belgium"])]);
   ("BL1",
     [("2024-2025",
       [mockScorer "Harry Kane" 14 "Bayern Munich" "England";
        mockScorer "Omar Marmoush" 13 "Eintracht Frankfurt" "Egypt";
        mockScorer "Victor Boniface" 8 "Bayer Leverkusen" "Nigeria";
        mockScorer "Serhou Guirassy" 7 "Borussia Dortmund" "Guinea";
        mockScorer "Wout Weghorst" 6 "VfL Wolfsburg" "Netherlands";
        mockScorer "Tim Kleindienst" 6 "Borussia Mönchengladbach" "Germany"])]);
   ("FL1",
     [("2024-2025",
       [mockScorer "Bradley Barcola" 10 "Paris Saint-Germain" "France";
        mockScorer "Mason Greenwood" 9 "Marseille" "England";
        mockScorer "Folarin Balogun" 8 "AS Monaco" "USA";
        mockScorer "Jonathan David" 8 "Lille" "Canada";
        mockScorer "Georges Mikautadze" 7 "Lyon" "Georgia";
        mockScorer "Ousmane Dembélé" 6 "Paris Saint-Germain" "France"])])].

(** [mockScorers[competition] || mockScorers['PL']], then the season asked
    for, else "2024-2025", else no scorer. *)
Definition getMockTopScorers (competition : string) (season : option string)
  : list TopScorer :=
  let competitionScorers :=
    match assoc competition mockScorers with
    | Some seasons => seasons
    | None => default [] (assoc "PL" mockScorers)
    end in
  match assoc (seasonOrDefault season) competitionScorers with
  | Some l => l
  | None => default [] (assoc "2024-2025" competitionScorers)
  end.

(** The callback of [data.topscorers.map]. *)
Definition scorerOf (scorer : value) : outcome TopScorer :=
  strPlayer <-- get scorer "strPlayer" ;;
  intGoals <-- get scorer "intGoals" ;;
  strTeam <-- get scorer "strTeam" ;;
  strNationality <-- get scorer "strNationality" ;;
  Ret {| scorer_name := strPlayer; scorer_goals := parseIntOr intGoals 0;
         scorer_team := strTeam; scorer_nationality := strNationality |}.

Definition topScorersEndpoint (competition : string) (season : option string) : string :=
  "/lookuptopscorers.php?l=" +:+ getLeagueId competition +:+ "&s=" +:+
  seasonOrDefault season.

Definition fetchTopScorers (competition : string) (season : option string)
    (e : FetchEnv) : Api (list TopScorer) :=
  payload <- fetchData (topScorersEndpoint competition season) e ;;
  scorers <- lift (get payload "topscorers") ;;
  match isArray scorers with
  | Some l => lift (mapM scorerOf l)
  | None => ret (getMockTopScorers competition season)
  end.

(** ** Event details and seasons *)

Definition fetchLineup (eventId : string) (e : FetchEnv) : Api value :=
  payload <- fetchData ("/lookuplineup.php?id=" +:+ eventId) e ;;
  lineup <- lift (get payload "lineup") ;;
  ret (if truthy lineup then payload else VObj [("lineup", VArr [])]).

Definition fetchEventStats (eventId : string) (e : FetchEnv) : Api value :=
  payload <- fetchData ("/lookupeventstats.php?id=" +:+ eventId) e ;;
  eventstats <- lift (get payload "eventstats") ;;
  ret (if truthy eventstats then payload else VObj [("eventstats", VArr [])]).

Definition fetchTimeline (eventId : string) (e : FetchEnv) : Api value :=
  payload <- fetchData ("/lookuptimeline.php?id=" +:+ eventId) e ;;
  timeline <- lift (get payload "timeline") ;;
  ret (if truthy timeline then payload else VObj [("timeline", VArr [])]).

Definition fetchSeasons (competition : string) : Api (list string) :=
  ret ["2024-2025"; "2023-2024"; "2022-2023"].

(** ** Vocabulary of the further properties *)

(** What a computation may do to the API object: it requests only URLs of
    [keys], in their order, changes the cache only at [keys], and drops no
    entry. *)
Definition footprint {A} (keys : list string) (m : Api A) : Prop :=
  forall api,
    let '(_, api', log) := m api in
    sublist log (map fullUrl keys)
    /\ (forall k, ~ In k keys -> cache api' !! k = cache api !! k)
    /\ (forall k, is_Some (cache api !! k) -> is_Some (cache api' !! k)).

(** What [fetchStandings] makes of the payload [fetchData] gave it. *)
Definition standingsOfPayload (competition : string) (season : option string)
    (payload : value) : outcome StandingsResult :=
  tbl <-- get payload "table" ;;
  match isArray tbl with
  | Some rows =>
      table <-- mapi standingsRowOf rows ;;
      Ret {| standings :=
               [{| stage := "REGULAR_SEASON"; groupType := "TOTAL"; table := table |}];
             competitionName := getCompetitionName competition;
             competitionCode := competition;
             season := seasonOrDefault season |}
  | None => Ret (getMockStandingsData competition season)
  end.

(** What [fetchMatches] makes of its payload. *)
Definition nextMatchesOfPayload (season : option string) (payload : value)
  : outcome MatchesResult :=
  events <-- get payload "events" ;;
  if truthy events then
    match isArray events with
    | Some l =>
        ms <-- mapM (matchOf "Premier League" season) l ;;
        Ret {| matches := ms; matchCount := length ms |}
    | None => Raise (TypeError "data.events.map is not a function")
    end
  else Ret noMatches.

(** What [fetchCompetitionMatches] makes of its payload. *)
Definition pastMatchesOfPayload (competition : string) (season : option string)
    (payload : value) : outcome MatchesResult :=
  eventsv <-- get payload "events" ;;
  match isArray eventsv with
  | Some all =>
      events <--
        match seasonGiven season with
        | Some s =>
            filterM (fun event => strSeason <-- get event "strSeason" ;;
                                  Ret (eqStr strSeason s)) all
        | None => Ret all
        end ;;
      ms <-- mapM (matchOf (getCompetitionName competition) season) events ;;
      Ret {| matches := ms; matchCount := length ms |}
  | None => Ret noMatches
  end.

(** What [fetchTopScorers] makes of its payload. *)
Definition topScorersOfPayload (competition : string) (season : option string)
    (payload : value) : outcome (list TopScorer) :=
  scorers <-- get payload "topscorers" ;;
  match isArray scorers with
  | Some l => mapM scorerOf l
  | None => Ret (getMockTopScorers competition season)
  end.

(** [data[key] ? data : { [key]: [] }], the body shared by [fetchLineup],
    [fetchEventStats] and [fetchTimeline]. *)
Definition detailOfPayload (key : string) (payload : value) : outcome value :=
  field <-- get payload key ;;
  Ret (if truthy field then payload else VObj [(key, VArr [])]).

(** The data [switchTab] stores for a tab that makes one [fetchData] call,
    as a function of the payload. *)
Definition tabDataOfPayload (tabId competition : string) (season : option string)
    (payload : value) : outcome TabData :=
  if String.eqb tabId "live-matches" then
    r <-- nextMatchesOfPayload season payload ;;
    let liveMatches :=
      List.filter (fun m => String.eqb (status m) "IN_PLAY" || String.eqb (status m) "LIVE")
                  (matches r) in
    Ret (if (length liveMatches =? 0)%nat
         then MatchesWithMessage (matches r)
                "No live matches at the moment - showing recent matches"
         else MatchesData {| matches := liveMatches; matchCount := matchCount r |})
  else if String.eqb tabId "league-tables" then
    r <-- standingsOfPayload competition season payload ;; Ret (StandingsData r)
  else
    r <-- pastMatchesOfPayload competition season payload ;;
    Ret (MatchesData {| matches := List.filter (fun m => String.eqb (status m) "FINISHED")
                                               (matches r);
                        matchCount := matchCount r |}).

(** The endpoint of a tab that makes one [fetchData] call. *)
Definition tabEndpoint (tabId competition : string) (season : option string) : string :=
  if String.eqb tabId "live-matches" then "/eventsnextleague.php?id=4328"
  else if String.eqb tabId "league-tables" then standingsEndpoint competition season
  else pastEventsEndpoint competition.

(** The endpoints a tab may request, in order. *)
Definition tabEndpoints (tabId competition : string) (season : option string)
  : list string :=
  if String.eqb tabId "team-stats" then teamEndpoints competition season
  else if existsb (String.eqb tabId) ["live-matches"; "league-tables"; "recent-results"]
       then [tabEndpoint tabId competition season]
       else [].

Definition isRequest (ev : Effect) : bool :=
  match ev with Request _ => true | _ => false end.

(** The data a [switchTab] stored, if it took the success path. *)
Definition storedData (effects : list Effect) : list TabData :=
  omap (fun ev => match ev with SetTabData d => Some d | _ => None end) effects.

(** A source row [standingsRowOf] can read: not [null], and its [strTeam]
    a string or absent. *)
Definition rowReadable (row : value) : bool :=
  match row with
  | VUndefined | VNull => false
  | _ =>
      match prop row "strTeam" with
      | VUndefined | VNull | VStr _ => true
      | _ => false
      end
  end.

(** The seasons [fetchSeasons] offers. *)
Definition offeredSeasons : list string := ["2024-2025"; "2023-2024"; "2022-2023"].

(** [max?.goalsFor || 0] in the search for the top scoring team. *)
Definition bestGoals (best : option StandingsRow) : Z :=
  match best with Some b => goalsFor b | None => 0 end.

(** ** The contact form *)

(** [String.prototype.trim]. *)
Fixpoint trimEnd (s : string) : string :=
  match s with
  | EmptyString => ""
  | String c r =>
      let r' := trimEnd r in
      if isWhite c && String.eqb r' "" then "" else String c r'
  end.

Definition trim (s : string) : string := trimEnd (trimStart s).

(** The three build-time settings, each possibly unset. *)
Record BuildEnv : Type :=
  { VITE_EMAILJS_SERVICE_ID : option string;
    VITE_EMAILJS_TEMPLATE_ID : option string;
    VITE_EMAILJS_PUBLIC_KEY : option string }.

Record EmailConfig : Type :=
  { serviceId : string; templateId : string; publicKey : string }.

(** [setting || fallback] for a setting that is a string or unset. *)
Definition settingOr (setting : option string) (fallback : string) : string :=
  match setting with
  | Some s => if String.eqb s "" then fallback else s
  | None => fallback
  end.

Definition emailConfig (env : BuildEnv) : EmailConfig :=
  {| serviceId := settingOr (VITE_EMAILJS_SERVICE_ID env) "service_thy4hfj";
     templateId := settingOr (VITE_EMAILJS_TEMPLATE_ID env) "template_d0lvtr9";
     publicKey := settingOr (VITE_EMAILJS_PUBLIC_KEY env) "ZIxFb9TY2-bjZWZm9" |}.

Record FormData : Type :=
  { form_name : string; form_email : string; form_subject : string;
    form_message : string }.

Definition emptyForm : FormData :=
  {| form_name := ""; form_email := ""; form_subject := ""; form_message := "" |}.

Record TemplateParams : Type :=
  { from_name : string; from_email : string; param_subject : string;
    param_message : string; to_email : string }.

(** What [handleSubmit] does to the outside, in order. *)
Inductive FormEffect : Type :=
| PreventDefault
| ToastError (text : string)
| ToastSuccess (text : string) (duration : Z)
| SetIsSubmitting (submitting : bool)
| EmailSend (service template : string) (params : TemplateParams) (key : string)
| SetFormData (f : FormData)
| WindowOpen (url target : string).

Definition newline : string := String (ascii_of_nat 10) "".

Section ContactForm.

(** [encodeURIComponent] of the host. *)
Variable encodeURIComponent : string -> string.

Definition mailtoLink (formData : FormData) : string :=
  let subject :=
    encodeURIComponent ("Footballytics Contact: " +:+ form_subject formData) in
  let body :=
    encodeURIComponent
      ("Hello," +:+ newline +:+ newline +:+
       "You have received a new message from your Footballytics website:" +:+
       newline +:+ newline +:+
       "Name: " +:+ form_name formData +:+ newline +:+
       "Email: " +:+ form_email formData +:+ newline +:+
       "Subject: " +:+ form_subject formData +:+ newline +:+ newline +:+
       "Message:" +:+ newline +:+ form_message formData +:+ newline +:+ newline +:+
       "---" +:+ newline +:+ "Sent via Footballytics Contact Form") in
  "mailto:georgiogelias@gmail.com?subject=" +:+ subject +:+ "&body=" +:+ body.

(** [handleSubmit] on the form as it stands; [sent] tells whether
    [emailjs.send] resolves. *)
Definition handleSubmit (env : BuildEnv) (formData : FormData) (sent : bool)
  : list FormEffect :=
  PreventDefault ::
  if String.eqb (trim (form_name formData)) ""
     || String.eqb (trim (form_email formData)) ""
     || String.eqb (trim (form_subject formData)) ""
     || String.eqb (trim (form_message formData)) ""
  then [ToastError "Please fill in all required fields."]
  else if negb (includes (form_email formData) "@")
  then [ToastError "Please enter a valid email address."]
  else
    let config := emailConfig env in
    let templateParams :=
      {| from_name := form_name formData; from_email := form_email formData;
         param_subject := form_subject formData;
         param_message := form_message formData;
         to_email := "georgiogelias@gmail.com" |} in
    [SetIsSubmitting true;
     EmailSend (serviceId config) (templateId config) templateParams (publicKey config)]
    ++ (if sent
        then [ToastSuccess "✅ Message sent successfully! We'll get back to you within 24 hours." 5000;
              SetFormData emptyForm]
        else [WindowOpen (mailtoLink formData) "_blank";
              ToastError "Direct email failed. Opening your email client as backup."])
    ++ [SetIsSubmitting false].

End ContactForm.

(** The string has a character that is not white space. *)
Definition hasInk (s : string) : bool :=
  existsb (fun c => negb (isWhite c)) (String.list_ascii_of_string s).

Definition isSend (ev : FormEffect) : bool :=
  match ev with EmailSend _ _ _ _ => true | _ => false end.

Definition changesPage (ev : FormEffect) : bool :=
  match ev with
  | SetIsSubmitting _ | SetFormData _ | WindowOpen _ _ | EmailSend _ _ _ _ => true
  | _ => false
  end.

(** * Properties *)

(** ** Sanity checks of the host functions *)

Example parseInt_samples :
  parseInt (VStr "  42px") = Some 42 /\ parseInt (VStr "-7") = Some (-7)
  /\ parseInt (VStr "0x1F") = Some 31 /\ parseInt (VStr "abc") = None
  /\ parseInt VUndefined = None /\ parseInt (VNum 15) = Some 15
  /\ parseInt (VArr [VStr "12"; VNum 3]) = Some 12 /\ parseInt (VStr "") = None
  /\ parseInt (VNum (-120)) = Some (-120) /\ parseInt (VNum 0) = Some 0.
Proof. vm_compute. repeat split. Qed.

Example includes_samples :
  includes "/lookuptable.php?l=4328" "table" = true
  /\ includes "/lookuptable.php?l=4328" "teams" = false
  /\ includes "abc" "" = true.
Proof. vm_compute. repeat split. Qed.

Example isoDate_samples :
  isoDate 0 = "1970-01-01" /\ isoDate 1730505600000 = "2024-11-02"
  /\ isoDate 951782400000 = "2000-02-29" /\ isoDate (-1) = "1969-12-31"
  /\ isoDate 1709251199999 = "2024-02-29".
Proof. vm_compute. repeat split. Qed.

(** ** The fetch cache layer *)

Example fetchData_cold_ok :
  fetchData "/x.php" {| checkTime := 5; response := HttpResponse 200 (Some (VNum 7)); doneTime := 9 |}
    newFootballAPI
  = (Ret (VNum 7), {| cache := {[ "/x.php" := {| data := VNum 7; timestamp := 9 |} ]} |},
     ["https://www.thesportsdb.com/api/v1/json/3/x.php"]).
Proof. vm_compute. reflexivity. Qed.

Lemma cacheExpiry_ten_minutes : cacheExpiry = 10 * 60 * 1000.
Proof. reflexivity. Qed.

Lemma fresh_spec api endpoint now :
  fresh api endpoint now = true <->
  exists c, cache api !! endpoint = Some c /\ now - timestamp c < cacheExpiry.
Proof.
  unfold fresh. destruct (cache api !! endpoint) as [c|].
  - rewrite Z.ltb_lt. split; [eauto | intros (c' & [= <-] & H); exact H].
  - split; [discriminate | intros (c' & [=] & _)].
Qed.

(** A fresh entry is returned as it is; the provider is not contacted. *)
Lemma fetchData_hit api endpoint e c :
  cache api !! endpoint = Some c ->
  checkTime e - timestamp c < cacheExpiry ->
  fetchData endpoint e api = (Ret (data c), api, []).
Proof.
  intros Hc Hlt. unfold fetchData, andThen, cacheGet, ret. rewrite Hc.
  apply Z.ltb_lt in Hlt. rewrite Hlt. reflexivity.
Qed.

(** Without a fresh entry [fetchData] runs the guarded live call. *)
Lemma fetchData_miss api endpoint e :
  fresh api endpoint (checkTime e) = false ->
  fetchData endpoint e api =
  tryCatch (liveFetch endpoint e)
           (fun _ => ret (getMockData endpoint (doneTime e))) api.
Proof.
  unfold fresh, fetchData, andThen, cacheGet. intros H.
  destruct (cache api !! endpoint) as [c|]; cbn.
  - rewrite H. destruct (tryCatch _ _ api) as [[r a] l]. reflexivity.
  - destruct (tryCatch _ _ api) as [[r a] l]. reflexivity.
Qed.

Lemma fetchData_live_ok api endpoint e status payload :
  fresh api endpoint (checkTime e) = false ->
  response e = HttpResponse status (Some payload) ->
  responseOk status = true ->
  fetchData endpoint e api =
  (Ret payload,
   {| cache := <[endpoint := {| data := payload; timestamp := doneTime e |}]> (cache api) |},
   [fullUrl endpoint]).
Proof.
  intros Hf Hr Hok. rewrite fetchData_miss by exact Hf.
  unfold tryCatch, liveFetch, andThen, request. rewrite Hr, Hok. reflexivity.
Qed.

Lemma fetchData_live_fail api endpoint e :
  fresh api endpoint (checkTime e) = false ->
  liveFails (response e) = true ->
  fetchData endpoint e api =
  (Ret (getMockData endpoint (doneTime e)), api, [fullUrl endpoint]).
Proof.
  intros Hf Hfail. rewrite fetchData_miss by exact Hf.
  unfold tryCatch, liveFetch, andThen, request.
  destruct (response e) as [|status body]; [reflexivity|].
  cbn in Hfail. destruct (responseOk status); cbn in *.
  - destruct body; [discriminate | reflexivity].
  - reflexivity.
Qed.

Lemma getMockData_marker endpoint now :
  get (getMockData endpoint now) "_isMockData" = Ret (VBool true).
Proof.
  unfold getMockData.
  destruct (_ || _); [reflexivity|].
  destruct (_ || _); [reflexivity|].
  destruct (_ || _); reflexivity.
Qed.

(** Every call is in one of three cases. *)
Lemma fetchData_cases api endpoint e :
  (exists c, cache api !! endpoint = Some c
             /\ checkTime e - timestamp c < cacheExpiry
             /\ fetchData endpoint e api = (Ret (data c), api, []))
  \/ (fresh api endpoint (checkTime e) = false
      /\ exists status payload,
           response e = HttpResponse status (Some payload)
           /\ responseOk status = true
           /\ fetchData endpoint e api =
              (Ret payload,
               {| cache := <[endpoint := {| data := payload; timestamp := doneTime e |}]> (cache api) |},
               [fullUrl endpoint]))
  \/ (fresh api endpoint (checkTime e) = false
      /\ liveFails (response e) = true
      /\ fetchData endpoint e api =
         (Ret (getMockData endpoint (doneTime e)), api, [fullUrl endpoint])).
Proof.
  destruct (fresh api endpoint (checkTime e)) eqn:Hf.
  - left. apply fresh_spec in Hf as (c & Hc & Hlt).
    exists c. repeat split; [exact Hc | exact Hlt | exact (fetchData_hit _ _ _ _ Hc Hlt)].
  - destruct (liveFails (response e)) eqn:Hl.
    + right; right. repeat split. exact (fetchData_live_fail _ _ _ Hf Hl).
    + right; left. split; [reflexivity|].
      destruct (response e) as [|status [payload|]] eqn:Hr; try discriminate.
      * cbn in Hl. destruct (responseOk status) eqn:Hok; try discriminate.
        exists status, payload.
        split; [reflexivity | split; [exact Hok|]].
        exact (fetchData_live_ok _ _ _ _ _ Hf Hr Hok).
      * cbn in Hl. rewrite orb_true_r in Hl. discriminate.
Qed.


(** C1. [fetchData] returns a value for every endpoint, cache and answer of
    the provider, never an exception; when the live call is made and fails
    (network error, status outside 2xx, body that is not JSON) the value is
    [getMockData]'s, and every value of [getMockData] carries
    [_isMockData: true]. *)
Theorem fetchData_never_raises (endpoint : string) (e : FetchEnv) (api : FootballAPI) :
  exists v api' log,
    fetchData endpoint e api = (Ret v, api', log)
    /\ (fresh api endpoint (checkTime e) = false ->
        liveFails (response e) = true ->
        v = getMockData endpoint (doneTime e)
        /\ get v "_isMockData" = Ret (VBool true)).
Proof.
  destruct (fetchData_cases api endpoint e)
    as [(c & Hc & Hlt & ->) | [(Hf & s & p & Hr & Hok & ->) | (Hf & Hl & ->)]].
  - exists (data c), api, []. split; [reflexivity|].
    intros Hf. assert (fresh api endpoint (checkTime e) = true) as Ht
      by (apply fresh_spec; eauto). congruence.
  - eexists _, _, _. split; [reflexivity|].
    intros _ Hl. rewrite Hr in Hl. cbn in Hl. rewrite Hok in Hl. discriminate.
  - eexists _, _, _. split; [reflexivity|].
    intros _ _. split; [reflexivity | apply getMockData_marker].
Qed.

Lemma fetchData_never_raises_witness :
  exists v api' log,
    fetchData "/eventspastleague.php?id=4328"
      {| checkTime := 1000; response := HttpResponse 503 None; doneTime := 1730505600000 |}
      newFootballAPI = (Ret v, api', log)
    /\ v = getMockData "/eventspastleague.php?id=4328" 1730505600000
    /\ get v "_isMockData" = Ret (VBool true).
Proof.
  destruct (fetchData_never_raises "/eventspastleague.php?id=4328"
              {| checkTime := 1000; response := HttpResponse 503 None;
                 doneTime := 1730505600000 |} newFootballAPI)
    as (v & api' & log & Heq & Hmock).
  exists v, api', log. split; [exact Heq|].
  apply Hmock; reflexivity.
Defined.

(** C2. A cache entry younger than the TTL of ten minutes is returned
    unchanged without a live call.  Hence, when a first call goes to the
    provider and succeeds, a second call within the TTL of the stored
    timestamp is served from the cache (one live call in all), and a call
    made once the TTL has elapsed goes to the provider again. *)
Theorem fetchData_cache_ttl (endpoint : string) (api : FootballAPI) :
  cacheExpiry = 600000
  /\ (forall e c,
        cache api !! endpoint = Some c ->
        checkTime e - timestamp c < cacheExpiry ->
        fetchData endpoint e api = (Ret (data c), api, []))
  /\ (forall e1 e2 status payload,
        fresh api endpoint (checkTime e1) = false ->
        response e1 = HttpResponse status (Some payload) ->
        responseOk status = true ->
        checkTime e2 - doneTime e1 < cacheExpiry ->
        let '(r1, api1, log1) := fetchData endpoint e1 api in
        let '(r2, api2, log2) := fetchData endpoint e2 api1 in
        r1 = Ret payload /\ r2 = Ret payload
        /\ (log1 ++ log2)%list = [fullUrl endpoint]
        /\ forall e3,
             cacheExpiry <= checkTime e3 - doneTime e1 ->
             let '(_, _, log3) := fetchData endpoint e3 api2 in
             log3 = [fullUrl endpoint]).
Proof.
  split; [reflexivity|]. split; [intros; auto using fetchData_hit|].
  intros e1 e2 status payload Hf Hr Hok Hin.
  rewrite (fetchData_live_ok _ _ _ _ _ Hf Hr Hok).
  set (api1 := {| cache := _ |}).
  assert (cache api1 !! endpoint
          = Some {| data := payload; timestamp := doneTime e1 |}) as Hc
    by apply lookup_insert_eq.
  rewrite (fetchData_hit api1 endpoint e2 _ Hc Hin). cbv beta iota zeta.
  split; [reflexivity | split; [reflexivity | split; [reflexivity|]]].
  intros e3 Hout.
  assert (fresh api1 endpoint (checkTime e3) = false) as Hstale.
  { unfold fresh. rewrite Hc. cbn. apply Z.ltb_ge. exact Hout. }
  destruct (fetchData_cases api1 endpoint e3)
    as [(c & Hc' & Hlt & _) | [(_ & s & p & _ & _ & ->) | (_ & _ & ->)]];
    try reflexivity.
  rewrite Hc in Hc'. injection Hc' as <-. cbn in Hlt. lia.
Qed.

Lemma fetchData_cache_ttl_witness :
  let api := newFootballAPI in
  let e1 := {| checkTime := 0; response := HttpResponse 200 (Some (VObj [("table", VNull)]));
               doneTime := 40 |} in
  let e2 := {| checkTime := 600039; response := NetworkError; doneTime := 600050 |} in
  let e3 := {| checkTime := 600040; response := NetworkError; doneTime := 600090 |} in
  let '(r1, api1, log1) := fetchData "/lookuptable.php?l=4328" e1 api in
  let '(r2, api2, log2) := fetchData "/lookuptable.php?l=4328" e2 api1 in
  r1 = Ret (VObj [("table", VNull)]) /\ r2 = Ret (VObj [("table", VNull)])
  /\ (log1 ++ log2)%list = [fullUrl "/lookuptable.php?l=4328"]
  /\ let '(_, _, log3) := fetchData "/lookuptable.php?l=4328" e3 api2 in
     log3 = [fullUrl "/lookuptable.php?l=4328"].
Proof.
  intros api e1 e2 e3.
  pose proof (fetchData_cache_ttl "/lookuptable.php?l=4328" api) as (_ & _ & H).
  specialize (H e1 e2 200 (VObj [("table", VNull)]) eq_refl eq_refl eq_refl).
  assert (checkTime e2 - doneTime e1 < cacheExpiry) as Hin by (vm_compute; reflexivity).
  specialize (H Hin).
  destruct (fetchData "/lookuptable.php?l=4328" e1 api) as [[r1 api1] log1].
  destruct (fetchData "/lookuptable.php?l=4328" e2 api1) as [[r2 api2] log2].
  destruct H as (H1 & H2 & H3 & H4).
  repeat split; try assumption.
  apply (H4 e3). vm_compute. discriminate.
Defined.

(** C3. The cache changes only through a successful live fetch.  When the
    live call fails the mock value is returned and the cache is left as it
    was, so the next call for the same endpoint (the clock not running
    backwards) requests the provider again. *)
Theorem fetchData_no_negative_caching (endpoint : string) (e : FetchEnv) (api : FootballAPI) :
  let '(r, api', log) := fetchData endpoint e api in
  (api' <> api ->
   exists status payload,
     response e = HttpResponse status (Some payload)
     /\ responseOk status = true /\ log = [fullUrl endpoint]
     /\ cache api' = <[endpoint := {| data := payload; timestamp := doneTime e |}]> (cache api))
  /\ (fresh api endpoint (checkTime e) = false ->
      liveFails (response e) = true ->
      r = Ret (getMockData endpoint (doneTime e))
      /\ api' = api
      /\ forall e2,
           checkTime e <= checkTime e2 ->
           let '(_, _, log2) := fetchData endpoint e2 api' in
           log2 = [fullUrl endpoint]).
Proof.
  destruct (fetchData_cases api endpoint e)
    as [(c & Hc & Hlt & ->) | [(Hf & s & p & Hr & Hok & ->) | (Hf & Hl & ->)]].
  - split; [intros []; reflexivity|].
    intros Hf. assert (fresh api endpoint (checkTime e) = true) as Ht
      by (apply fresh_spec; eauto). congruence.
  - split; [intros _; exists s, p; auto|].
    intros _ Hl. rewrite Hr in Hl. cbn in Hl. rewrite Hok in Hl. discriminate.
  - split; [intros []; reflexivity|].
    intros _ _. repeat split. intros e2 Hmono.
    assert (fresh api endpoint (checkTime e2) = false) as Hf2.
    { unfold fresh in *. destruct (cache api !! endpoint) as [c|]; [|reflexivity].
      apply Z.ltb_ge. apply Z.ltb_ge in Hf. lia. }
    destruct (fetchData_cases api endpoint e2)
      as [(c & Hc' & Hlt & _) | [(_ & s & p & _ & _ & ->) | (_ & _ & ->)]];
      try reflexivity.
    assert (fresh api endpoint (checkTime e2) = true) as Ht
      by (apply fresh_spec; eauto). congruence.
Qed.

Lemma fetchData_no_negative_caching_witness :
  let api := {| cache := {[ "/lookuptable.php?l=4328" := {| data := VNull; timestamp := 0 |} ]} |} in
  let e := {| checkTime := 700000; response := HttpResponse 404 (Some VNull); doneTime := 700100 |} in
  let e2 := {| checkTime := 700200; response := NetworkError; doneTime := 700300 |} in
  let '(r, api', log) := fetchData "/lookuptable.php?l=4328" e api in
  r = Ret (getMockData "/lookuptable.php?l=4328" 700100)
  /\ api' = api
  /\ let '(_, _, log2) := fetchData "/lookuptable.php?l=4328" e2 api' in
     log2 = [fullUrl "/lookuptable.php?l=4328"].
Proof.
  intros api e e2.
  pose proof (fetchData_no_negative_caching "/lookuptable.php?l=4328" e api) as H.
  destruct (fetchData "/lookuptable.php?l=4328" e api) as [[r api'] log].
  destruct H as (_ & H).
  destruct (H eq_refl eq_refl) as (Hr & Ha & Hnext).
  repeat split; try assumption.
  apply (Hnext e2). vm_compute. discriminate.
Defined.

(** ** Static configuration *)





(** ** Standings rows *)

Lemma get_prop src p v : get src p = Ret v -> v = prop src p.
Proof. destruct src; cbn; congruence. Qed.

Lemma parseIntOr_nan x d : parseInt x = None -> parseIntOr x d = d.
Proof. unfold parseIntOr. intros ->. reflexivity. Qed.

Lemma parseIntOr_nonzero x d n : parseInt x = Some n -> n <> 0 -> parseIntOr x d = n.
Proof.
  unfold parseIntOr. intros -> Hn. destruct (Z.eqb_spec n 0); [contradiction | reflexivity].
Qed.

(** The row [standingsRowOf] builds, field by field. *)
Lemma standingsRowOf_fields index src r :
  standingsRowOf index src = Ret r ->
  position r = parseIntOr (prop src "intRank") (Z.of_nat index + 1)
  /\ playedGames r = parseIntOr (prop src "intPlayed") 0
  /\ won r = parseIntOr (prop src "intWin") 0
  /\ draw r = parseIntOr (prop src "intDraw") 0
  /\ lost r = parseIntOr (prop src "intLoss") 0
  /\ points r = parseIntOr (prop src "intPoints") 0
  /\ goalsFor r = parseIntOr (prop src "intGoalsFor") 0
  /\ goalsAgainst r = parseIntOr (prop src "intGoalsAgainst") 0
  /\ goalDifference r =
     parseIntOr (prop src "intGoalDifference") (goalsFor r - goalsAgainst r).
Proof.
  unfold standingsRowOf. intros H.
  repeat match type of H with
         | Js.bind ?m _ = Ret _ =>
             let E := fresh "E" in
             destruct m eqn:E; cbn [Js.bind] in H; [|discriminate H]
         end.
  injection H as <-. cbn.
  repeat match goal with
         | E : get src _ = Ret _ |- _ => apply get_prop in E; subst
         end.
  repeat split.
Qed.

(** C4, as amended.  In a row mapped by [fetchStandings], each of
    playedGames, won, draw, lost, points, goalsFor and goalsAgainst is 0
    when its source field does not parse, and position is then the index
    plus one.  goalDifference is the parsed source field when that parses
    to a number other than 0, and is goalsFor - goalsAgainst of the row
    when the source field is omitted or does not parse. *)
Theorem standings_row_numbers (index : nat) (src : value) (r : StandingsRow) :
  standingsRowOf index src = Ret r ->
  (parseInt (prop src "intPlayed") = None -> playedGames r = 0)
  /\ (parseInt (prop src "intWin") = None -> won r = 0)
  /\ (parseInt (prop src "intDraw") = None -> draw r = 0)
  /\ (parseInt (prop src "intLoss") = None -> lost r = 0)
  /\ (parseInt (prop src "intPoints") = None -> points r = 0)
  /\ (parseInt (prop src "intGoalsFor") = None -> goalsFor r = 0)
  /\ (parseInt (prop src "intGoalsAgainst") = None -> goalsAgainst r = 0)
  /\ (parseInt (prop src "intRank") = None -> position r = Z.of_nat index + 1)
  /\ (forall n, parseInt (prop src "intGoalDifference") = Some n -> n <> 0 ->
                goalDifference r = n)
  /\ (parseInt (prop src "intGoalDifference") = None ->
      goalDifference r = goalsFor r - goalsAgainst r)
  /\ (prop src "intGoalDifference" = VUndefined ->
      goalDifference r = goalsFor r - goalsAgainst r).
Proof.
  intros H.
  destruct (standingsRowOf_fields _ _ _ H)
    as (Hpos & Hpl & Hw & Hd & Hl & Hpt & Hgf & Hga & Hgd).
  rewrite Hpos, Hpl, Hw, Hd, Hl, Hpt, Hgd. rewrite Hgf at 1. rewrite Hga at 1.
  repeat split; intros; try (apply parseIntOr_nan; assumption).
  - apply parseIntOr_nonzero; assumption.
  - apply parseIntOr_nan. replace (prop src "intGoalDifference") with VUndefined.
    reflexivity.
Qed.

Lemma standings_row_numbers_witness :
  let src := VObj [("idTeam", VStr "133602"); ("strTeam", VStr "Liverpool");
                   ("intPlayed", VStr "15"); ("intWin", VStr "eleven");
                   ("intGoalsFor", VStr "29"); ("intGoalsAgainst", VStr "8");
                   ("intGoalDifference", VStr "-")] in
  exists r, standingsRowOf 2 src = Ret r
            /\ won r = 0 /\ position r = 3 /\ goalDifference r = 21.
Proof.
  intros src.
  destruct (standingsRowOf 2 src) as [r|] eqn:E; [|vm_compute in E; discriminate E].
  exists r. split; [reflexivity|].
  destruct (standings_row_numbers 2 src r E)
    as (_ & Hw & _ & _ & _ & _ & _ & Hpos & _ & Hgd & _).
  split; [apply Hw; reflexivity|].
  split; [apply Hpos; reflexivity|].
  rewrite Hgd by reflexivity.
  vm_compute in E. injection E as <-. reflexivity.
Defined.

(** C4 as stated fails on a row at index 4 that has no rank and supplies
    the goal difference "0" with 10 goals for and 5 against: the position
    is 5, not 0, and the goal difference is 5, not the parsed 0. *)
Lemma standings_row_counterexample :
  let src := VObj [("strTeam", VStr "Everton"); ("intGoalsFor", VStr "10");
                   ("intGoalsAgainst", VStr "5"); ("intGoalDifference", VStr "0")] in
  exists r,
    standingsRowOf 4 src = Ret r
    /\ parseInt (prop src "intRank") = None
    /\ position r = 5 /\ position r <> 0
    /\ parseInt (prop src "intGoalDifference") = Some 0
    /\ goalDifference r = 5 /\ goalDifference r <> 0.
Proof.
  eexists. split; [vm_compute; reflexivity|].
  vm_compute. repeat split; discriminate.
Qed.

(** ** The tab manager *)

Lemma filter_requests_off (urls : list string) :
  List.filter isLoadingOff (map Request urls) = [].
Proof. induction urls as [|u r IH]; [reflexivity | exact IH]. Qed.


(** C7.  The effects of [switchTab] begin with [setActiveTab(tabId)] and
    [setLoading(true)], before any request of the load; then come the
    requests, then either the data with the success toast or the failure
    toast with the error payload, and last [setLoading(false)], which occurs
    exactly once. *)
Theorem switchTab_loading_protocol (tm : TabManager) (tabId competition : string)
    (season : option string) (e1 e2 e3 : FetchEnv) :
  exists urls completion,
    snd (switchTab tm tabId competition season e1 e2 e3)
    = ([SetActiveTab tabId; SetLoading true]
       ++ map Request urls ++ completion ++ [SetLoading false])%list
    /\ ((exists d, completion = [SetTabData d; ShowToast (successToast tabId)])
        \/ completion = [ShowToast failureToast; SetTabData errorPayload])
    /\ length (List.filter isLoadingOff
                 (snd (switchTab tm tabId competition season e1 e2 e3))) = 1%nat.
Proof.
  unfold switchTab.
  destruct (loadTab tabId competition season e1 e2 e3 (api tm)) as [[r api'] urls].
  cbn [snd].
  exists urls.
  destruct r as [d | err].
  - exists [SetTabData d; ShowToast (successToast tabId)].
    split; [reflexivity|]. split; [left; exists d; reflexivity|].
    cbn. rewrite List.filter_app, filter_requests_off. reflexivity.
  - exists [ShowToast failureToast; SetTabData errorPayload].
    split; [reflexivity|]. split; [right; reflexivity|].
    cbn. rewrite List.filter_app, filter_requests_off. reflexivity.
Qed.



Lemma switchTab_activeTab tm tabId competition season e1 e2 e3 :
  activeTab (fst (switchTab tm tabId competition season e1 e2 e3)) = activeTab tm.
Proof.
  unfold switchTab.
  destruct (loadTab tabId competition season e1 e2 e3 (api tm)) as [[r api'] urls].
  reflexivity.
Qed.

Lemma runSwitches_activeTab calls : forall tm,
  activeTab (runSwitches tm calls) = activeTab tm.
Proof.
  induction calls as [|c calls IH]; intros tm; [reflexivity|].
  cbn. unfold runSwitches in IH. rewrite IH. apply switchTab_activeTab.
Qed.

(** C10.  [switchTab] leaves the manager's own [activeTab] field alone:
    after any calls on a manager built with [initial], one more
    [switchTab(tabId, ...)] still leaves [getCurrentTab()] equal to
    [initial], and [isTabActive(t)] holds just for [t] equal to
    [initial]. *)
Theorem switchTab_keeps_activeTab (initial : string) (calls : list SwitchCall)
    (tabId competition : string) (season : option string) (e1 e2 e3 : FetchEnv) :
  let tm := runSwitches (newTabManager initial) calls in
  let tm' := fst (switchTab tm tabId competition season e1 e2 e3) in
  getCurrentTab tm' = initial
  /\ (forall t, isTabActive tm' t = true <-> t = initial)
  /\ (isTabActive tm' tabId = true <-> tabId = initial).
Proof.
  intros tm tm'.
  assert (activeTab tm' = initial) as H.
  { unfold tm', tm. rewrite switchTab_activeTab, runSwitches_activeTab. reflexivity. }
  unfold getCurrentTab, isTabActive. rewrite H.
  split; [reflexivity|].
  split; [intros t|]; rewrite String.eqb_eq; split; congruence.
Qed.

(** ** Teams *)

Lemma strictEq_refl a : isReference a = false -> strictEq a a = true.
Proof.
  destruct a; cbn; try reflexivity; try discriminate; intros _.
  - destruct b; reflexivity.
  - apply Z.eqb_refl.
  - apply String.eqb_refl.
Qed.







Lemma keepFirst_In seen l t : In t (keepFirst seen l) -> In t l.
Proof.
  revert seen. induction l as [|x r IH]; intros seen; cbn; [tauto|].
  destruct (existsb _ _); cbn; intros H.
  - right. eapply IH. exact H.
  - destruct H as [H|H]; [left; exact H | right; eapply IH; exact H].
Qed.



(** Every identifier of the list has its first bearer in the result. *)
Lemma keepFirst_covers l t :
  In t l -> isReference (team_id t) = false ->
  exists u, In u (keepFirst [] l) /\ strictEq (team_id u) (team_id t) = true.
Proof.
  assert (forall l seen t,
            In t l -> isReference (team_id t) = false ->
            (exists s, In s seen /\ strictEq s (team_id t) = true)
            \/ exists u, In u (keepFirst seen l)
                         /\ strictEq (team_id u) (team_id t) = true) as H.
  { clear. induction l as [|x r IH]; intros seen t Hin Hnr; [destruct Hin|].
    cbn. destruct Hin as [->|Hin].
    - destruct (existsb _ seen) eqn:Hex.
      + left. apply existsb_exists in Hex as (s & Hs & E). eauto.
      + right. exists t. split; [left; reflexivity | apply strictEq_refl, Hnr].
    - destruct (IH (seen ++ [team_id x])%list t Hin Hnr) as [(s & Hs & E)|(u & Hu & E)].
      + apply in_app_or in Hs as [Hs|[<-|[]]]; [left; eauto|].
        destruct (existsb _ seen) eqn:Hex.
        * apply existsb_exists in Hex as (s & Hs & E').
          left. exists s. split; [exact Hs|].
          destruct s, (team_id x), (team_id t); cbn in *; try discriminate;
            try reflexivity.
          -- destruct b, b0, b1; cbn in *; congruence.
          -- apply Z.eqb_eq in E, E'. apply Z.eqb_eq. congruence.
          -- apply String.eqb_eq in E, E'. apply String.eqb_eq. congruence.
        * right. exists x. split; [left; reflexivity | exact E].
      + right. exists u. split; [|exact E].
        destruct (existsb _ seen); [exact Hu | right; exact Hu]. }
  intros Hin Hnr. destruct (H l [] t Hin Hnr) as [(s & [] & _)|Hu]. exact Hu.
Qed.









(** ** Analytics *)

Lemma fold_left_total (column : StandingsRow -> Z) rows : forall acc,
  fold_left (fun sum row => sum + column row) rows acc = acc + total column rows.
Proof.
  induction rows as [|r rest IH]; intros acc; cbn; [lia|].
  rewrite IH. lia.
Qed.

Lemma Qle_bool_false (x y : Q) : Qle_bool x y = false <-> (y < x)%Q.
Proof.
  split.
  - intros H. apply Qnot_le_lt. intros Hle. apply Qle_bool_iff in Hle. congruence.
  - intros H. destruct (Qle_bool x y) eqn:E; [|reflexivity].
    apply Qle_bool_iff in E. exfalso. exact (Qlt_not_le _ _ H E).
Qed.

Lemma half_positive (p : Z) : (0 < inject_Z p / 2)%Q <-> 0 < p.
Proof.
  unfold Qlt, Qdiv, Qmult, Qinv, inject_Z. cbn. lia.
Qed.

Lemma feeds_use_different_keys competition season competition' :
  standingsEndpoint competition season <> pastEventsEndpoint competition'.
Proof. unfold standingsEndpoint, pastEventsEndpoint. cbn. intros [=]. Qed.

Section AnalyticsFacts.

Variable toFixed1 : Q -> Z.

(** What [toFixed(1)] is taken to do: print a nearest tenth. *)
Hypothesis toFixed1_nearest :
  forall q : Q, (Qabs (q - tenths (toFixed1 q)) <= 1 # 20)%Q.

Lemma summarize_average rows finished :
  let G := total goalsFor rows in
  let P := total playedGames rows in
  totalGoals (summarize toFixed1 rows finished) = G
  /\ (0 < P ->
      avgGoalsPerMatch (summarize toFixed1 rows finished)
      = tenths (toFixed1 (inject_Z G / (inject_Z P / 2))%Q))
  /\ (P <= 0 -> avgGoalsPerMatch (summarize toFixed1 rows finished) = 0%Q).
Proof.
  intros G P. unfold summarize. cbn [totalGoals avgGoalsPerMatch].
  rewrite !fold_left_total, !Z.add_0_l. fold G. fold P.
  split; [reflexivity|]. split; intros HP.
  - assert (Qle_bool (inject_Z P / 2) 0 = false) as ->
      by (apply Qle_bool_false, half_positive, HP).
    reflexivity.
  - assert (Qle_bool (inject_Z P / 2) 0 = true) as ->.
    { apply Qle_bool_iff. apply Qnot_lt_le. rewrite half_positive. lia. }
    reflexivity.
Qed.

(** C6.  [fetchAnalyticsData] never throws.  When both feeds return, the
    average goals per match is the total of goalsFor divided by half the
    total of playedGames, as [toFixed(1)] rounds it to a tenth (within one
    twentieth of the quotient), and it is 0 when the table is empty or
    that denominator is not positive.  When a feed throws, the summary is
    the all-zero, empty one. *)
Theorem analytics_summary (competition : string) (season : option string)
    (e1 e2 : FetchEnv) (api : FootballAPI) :
  let '(r1, api1, log1) := fetchStandings competition season e1 api in
  let '(r2, api2, log2) := fetchCompetitionMatches competition season e2 api1 in
  exists s,
    fetchAnalyticsData toFixed1 competition season e1 e2 api
    = (Ret s, api2, (log1 ++ log2)%list)
    /\ match r1, r2 with
       | Ret sr, Ret mr =>
           let G := total goalsFor (firstTable sr) in
           let P := total playedGames (firstTable sr) in
           totalGoals s = G
           /\ (0 < P ->
               avgGoalsPerMatch s = tenths (toFixed1 (inject_Z G / (inject_Z P / 2))%Q)
               /\ (Qabs (inject_Z G / (inject_Z P / 2) - avgGoalsPerMatch s) <= 1 # 20)%Q)
           /\ (P <= 0 -> avgGoalsPerMatch s = 0%Q)
           /\ (firstTable sr = [] -> avgGoalsPerMatch s = 0%Q)
       | _, _ => s = emptySummary
       end.
Proof.
  unfold fetchAnalyticsData, tryCatch, andThen, promiseAll2.
  destruct (fetchStandings competition season e1 api) as [[r1 api1] log1].
  destruct (fetchCompetitionMatches competition season e2 api1) as [[r2 api2] log2].
  destruct r1 as [sr|err1], r2 as [mr|err2]; unfold ret; cbv beta iota zeta.
  - eexists. split; [rewrite !app_nil_r; reflexivity|].
    destruct (summarize_average (firstTable sr)
                (take 100 (List.filter (fun m => String.eqb (status m) "FINISHED")
                                       (matches mr)))) as (HG & Hpos & Hzero).
    split; [exact HG|]. split; [|split; [exact Hzero|]].
    + intros HP. rewrite (Hpos HP). split; [reflexivity|]. apply toFixed1_nearest.
    + intros Hempty. apply Hzero. rewrite Hempty. cbn. lia.
  - exists emptySummary. split; [rewrite !app_nil_r; reflexivity | reflexivity].
  - exists emptySummary. split; [rewrite !app_nil_r; reflexivity | reflexivity].
  - exists emptySummary. split; [rewrite !app_nil_r; reflexivity | reflexivity].
Qed.

End AnalyticsFacts.

(** The rounding used in the examples prints a nearest tenth. *)
Lemma halfUpTenths_nearest (q : Q) :
  (Qabs (q - tenths (halfUpTenths q)) <= 1 # 20)%Q.
Proof.
  unfold tenths. rewrite Qred_correct. apply Qabs_Qle_condition.
  unfold halfUpTenths. destruct (Qle_bool 0 q) eqn:Hs.
  - pose proof (Qfloor_le (10 * q + (1 # 2))) as Hlo.
    pose proof (Qlt_floor (10 * q + (1 # 2))) as Hhi.
    set (n := Qfloor (10 * q + (1 # 2))) in *.
    rewrite inject_Z_plus in Hhi.
    rewrite (Qmake_Qdiv n 10). change (inject_Z (Z.pos 10)) with 10%Q.
    set (x := inject_Z n) in *. change (inject_Z 1) with 1%Q in Hhi.
    clearbody x. clear n. unfold Qdiv. change (/ 10)%Q with (1 # 10)%Q.
    split; lra.
  - pose proof (Qfloor_le (10 * - q + (1 # 2))) as Hlo.
    pose proof (Qlt_floor (10 * - q + (1 # 2))) as Hhi.
    set (n := Qfloor (10 * - q + (1 # 2))) in *.
    rewrite inject_Z_plus in Hhi.
    rewrite (Qmake_Qdiv (- n) 10). change (inject_Z (Z.pos 10)) with 10%Q.
    rewrite inject_Z_opp.
    set (x := inject_Z n) in *. change (inject_Z 1) with 1%Q in Hhi.
    clearbody x. clear n. unfold Qdiv. change (/ 10)%Q with (1 # 10)%Q.
    split; lra.
Qed.

Lemma analytics_summary_witness :
  let down := {| checkTime := 0; response := NetworkError; doneTime := 0 |} in
  exists s api' log,
    fetchAnalyticsData halfUpTenths "PL" None down down newFootballAPI = (Ret s, api', log)
    /\ totalGoals s = 114
    /\ avgGoalsPerMatch s = (19 # 5)%Q.
Proof.
  intros down.
  pose proof (analytics_summary halfUpTenths halfUpTenths_nearest "PL" None down down
                newFootballAPI) as H.
  destruct (fetchStandings "PL" None down newFootballAPI) as [[r1 api1] log1] eqn:E1.
  destruct (fetchCompetitionMatches "PL" None down api1) as [[r2 api2] log2] eqn:E2.
  destruct H as (s & Hs & Hrest).
  exists s, api2, (log1 ++ log2)%list. split; [exact Hs|].
  vm_compute in E1. injection E1 as <- <- <-.
  vm_compute in E2. injection E2 as <- <- <-.
  destruct Hrest as (HG & Havg & _).
  split; [exact HG|].
  destruct Havg as [Havg _]; [reflexivity|].
  rewrite Havg. vm_compute. reflexivity.
Defined.

Example analytics_empty_table :
  let up := {| checkTime := 0; response := HttpResponse 200 (Some (VObj [("table", VArr [])]));
               doneTime := 0 |} in
  let down := {| checkTime := 0; response := NetworkError; doneTime := 0 |} in
  exists s api' log,
    fetchAnalyticsData halfUpTenths "PL" None up down newFootballAPI = (Ret s, api', log)
    /\ topTeams s = [] /\ avgGoalsPerMatch s = 0%Q /\ totalGoals s = 0.
Proof. vm_compute. eexists _, _, _. repeat split. Qed.

Example analytics_feed_error :
  let broken := {| checkTime := 0; response := HttpResponse 200 (Some VNull); doneTime := 0 |} in
  let down := {| checkTime := 0; response := NetworkError; doneTime := 0 |} in
  exists api',
    fetchStandings "PL" None broken newFootballAPI
    = (Raise (TypeError "Cannot read properties of null (reading 'table')"), api',
       [fullUrl "/lookuptable.php?l=4328"])
    /\ exists api'' log',
         fetchAnalyticsData halfUpTenths "PL" None broken down newFootballAPI
         = (Ret emptySummary, api'', log').
Proof. vm_compute. eexists. split; [reflexivity|]. eexists _, _. reflexivity. Qed.

Example switchTab_error_path :
  let broken := {| checkTime := 0; response := HttpResponse 200 (Some VNull); doneTime := 0 |} in
  snd (switchTab (newTabManager "live-matches") "league-tables" "PL" None
         broken broken broken)
  = [SetActiveTab "league-tables"; SetLoading true;
     Request (fullUrl "/lookuptable.php?l=4328");
     ShowToast failureToast; SetTabData errorPayload; SetLoading false].
Proof. vm_compute. reflexivity. Qed.

(** * Further properties *)

(** ** Each normaliser is [fetchData] followed by a function of the payload *)

Ltac via_cases :=
  repeat (cbn [Js.bind]; rewrite ?app_nil_r;
          match goal with
          | |- context [match ?x with Ret _ => _ | Raise _ => _ end] =>
              is_var x; destruct x
          | |- context [match ?x with Ret _ => _ | Raise _ => _ end] =>
              let E := fresh "E" in destruct x eqn:E
          | |- context [match ?x with Some _ => _ | None => _ end] =>
              let E := fresh "E" in destruct x eqn:E
          | |- context [if ?b then _ else _] =>
              let E := fresh "E" in destruct b eqn:E
          end);
  cbn [Js.bind]; rewrite ?app_nil_r; try reflexivity.

Lemma fetchStandings_via competition season e api :
  fetchStandings competition season e api =
  let '(r, api', log) := fetchData (standingsEndpoint competition season) e api in
  (Js.bind r (standingsOfPayload competition season), api', log).
Proof.
  unfold fetchStandings, standingsOfPayload, andThen, lift, ret.
  destruct (fetchData _ e api) as [[[p|err] api'] log]; [|reflexivity].
  via_cases.
Qed.

Lemma fetchMatches_via season e api :
  fetchMatches season e api =
  let '(r, api', log) := fetchData "/eventsnextleague.php?id=4328" e api in
  (Js.bind r (nextMatchesOfPayload season), api', log).
Proof.
  unfold fetchMatches, nextMatchesOfPayload, andThen, lift, ret, raise.
  destruct (fetchData _ e api) as [[[p|err] api'] log]; [|reflexivity].
  via_cases.
Qed.

Lemma fetchCompetitionMatches_via competition season e api :
  fetchCompetitionMatches competition season e api =
  let '(r, api', log) := fetchData (pastEventsEndpoint competition) e api in
  (Js.bind r (pastMatchesOfPayload competition season), api', log).
Proof.
  unfold fetchCompetitionMatches, pastMatchesOfPayload, andThen, lift, ret.
  destruct (fetchData _ e api) as [[[p|err] api'] log]; [|reflexivity].
  via_cases.
Qed.

Lemma fetchTopScorers_via competition season e api :
  fetchTopScorers competition season e api =
  let '(r, api', log) := fetchData (topScorersEndpoint competition season) e api in
  (Js.bind r (topScorersOfPayload competition season), api', log).
Proof.
  unfold fetchTopScorers, topScorersOfPayload, andThen, lift, ret.
  destruct (fetchData _ e api) as [[[p|err] api'] log]; [|reflexivity].
  via_cases.
Qed.

Lemma fetchLineup_via eventId e api :
  fetchLineup eventId e api =
  let '(r, api', log) := fetchData ("/lookuplineup.php?id=" +:+ eventId) e api in
  (Js.bind r (detailOfPayload "lineup"), api', log).
Proof.
  unfold fetchLineup, detailOfPayload, andThen, lift, ret.
  destruct (fetchData _ e api) as [[[p|err] api'] log]; [|reflexivity].
  via_cases.
Qed.

Lemma fetchEventStats_via eventId e api :
  fetchEventStats eventId e api =
  let '(r, api', log) := fetchData ("/lookupeventstats.php?id=" +:+ eventId) e api in
  (Js.bind r (detailOfPayload "eventstats"), api', log).
Proof.
  unfold fetchEventStats, detailOfPayload, andThen, lift, ret.
  destruct (fetchData _ e api) as [[[p|err] api'] log]; [|reflexivity].
  via_cases.
Qed.

Lemma fetchTimeline_via eventId e api :
  fetchTimeline eventId e api =
  let '(r, api', log) := fetchData ("/lookuptimeline.php?id=" +:+ eventId) e api in
  (Js.bind r (detailOfPayload "timeline"), api', log).
Proof.
  unfold fetchTimeline, detailOfPayload, andThen, lift, ret.
  destruct (fetchData _ e api) as [[[p|err] api'] log]; [|reflexivity].
  via_cases.
Qed.

(** ** What a call may do to the cache and to the provider *)

Lemma footprint_weaken {A} keys keys' (m : Api A) :
  footprint keys m -> sublist keys keys' -> footprint keys' m.
Proof.
  intros H Hsub api. specialize (H api).
  destruct (m api) as [[r api'] log]. destruct H as (Hlog & Hother & Hkeep).
  split; [|split; [|exact Hkeep]].
  - etransitivity; [exact Hlog|]. apply (fmap_sublist fullUrl). exact Hsub.
  - intros k Hk. apply Hother. intros Hin. apply Hk.
    apply list_elem_of_In. eapply elem_of_sublist; [|exact Hsub].
    apply list_elem_of_In. exact Hin.
Qed.

Lemma footprint_pure {A} (o : outcome A) : footprint [] (lift o).
Proof.
  intros api. cbn. split; [constructor|]. split; [reflexivity | tauto].
Qed.

Lemma footprint_andThen {A B} keys1 keys2 (m : Api A) (k : A -> Api B) :
  footprint keys1 m -> (forall a, footprint keys2 (k a)) ->
  footprint (keys1 ++ keys2) (andThen m k).
Proof.
  intros Hm Hk api. unfold andThen. specialize (Hm api).
  destruct (m api) as [[[a|err] api1] log1]; destruct Hm as (Hlog & Hother & Hkeep).
  - specialize (Hk a api1). destruct (k a api1) as [[r api2] log2].
    destruct Hk as (Hlog2 & Hother2 & Hkeep2).
    split; [|split].
    + rewrite map_app. apply sublist_app; assumption.
    + intros key Hn. rewrite Hother2, Hother; [reflexivity| |];
        intros Hin; apply Hn, in_or_app; tauto.
    + intros key Hs. apply Hkeep2, Hkeep, Hs.
  - split; [|split; [|exact Hkeep]].
    + rewrite map_app. apply sublist_inserts_r. exact Hlog.
    + intros key Hn. apply Hother. intros Hin. apply Hn, in_or_app. tauto.
Qed.

Lemma footprint_tryCatch {A} keys1 keys2 (m : Api A) (h : error -> Api A) :
  footprint keys1 m -> (forall err, footprint keys2 (h err)) ->
  footprint (keys1 ++ keys2) (tryCatch m h).
Proof.
  intros Hm Hh api. unfold tryCatch. specialize (Hm api).
  destruct (m api) as [[[a|err] api1] log1]; destruct Hm as (Hlog & Hother & Hkeep).
  - split; [|split; [|exact Hkeep]].
    + rewrite map_app. apply sublist_inserts_r. exact Hlog.
    + intros key Hn. apply Hother. intros Hin. apply Hn, in_or_app. tauto.
  - specialize (Hh err api1). destruct (h err api1) as [[r api2] log2].
    destruct Hh as (Hlog2 & Hother2 & Hkeep2).
    split; [|split].
    + rewrite map_app. apply sublist_app; assumption.
    + intros key Hn. rewrite Hother2, Hother; [reflexivity| |];
        intros Hin; apply Hn, in_or_app; tauto.
    + intros key Hs. apply Hkeep2, Hkeep, Hs.
Qed.

Lemma footprint_promiseAll2 {A B} keys1 keys2 (m1 : Api A) (m2 : Api B) :
  footprint keys1 m1 -> footprint keys2 m2 ->
  footprint (keys1 ++ keys2) (promiseAll2 m1 m2).
Proof.
  intros H1 H2 api. unfold promiseAll2. specialize (H1 api).
  destruct (m1 api) as [[r1 api1] log1]. destruct H1 as (Hlog & Hother & Hkeep).
  specialize (H2 api1). destruct (m2 api1) as [[r2 api2] log2].
  destruct H2 as (Hlog2 & Hother2 & Hkeep2).
  split; [|split].
  - rewrite map_app. apply sublist_app; assumption.
  - intros key Hn. rewrite Hother2, Hother; [reflexivity| |];
      intros Hin; apply Hn, in_or_app; tauto.
  - intros key Hs. apply Hkeep2, Hkeep, Hs.
Qed.

Lemma fetchData_footprint (endpoint : string) (e : FetchEnv) :
  footprint [endpoint] (fetchData endpoint e).
Proof.
  intros api.
  destruct (fetchData_cases api endpoint e)
    as [(c & _ & _ & ->) | [(_ & s & p & _ & _ & ->) | (_ & _ & ->)]]; cbn [map].
  - split; [apply sublist_nil_l|]. split; [reflexivity | tauto].
  - split; [reflexivity|]. split.
    + intros k Hk. cbn. apply lookup_insert_ne. intros ->. apply Hk. left. reflexivity.
    + intros k Hs. cbn. destruct (decide (endpoint = k)) as [->|Hne].
      * rewrite lookup_insert_eq. eauto.
      * rewrite lookup_insert_ne by exact Hne. exact Hs.
  - split; [reflexivity|]. split; [reflexivity | tauto].
Qed.

Lemma footprint_via {A} endpoint e (f : value -> outcome A) (m : Api A) :
  (forall api, m api = let '(r, api', log) := fetchData endpoint e api in
                       (Js.bind r f, api', log)) ->
  footprint [endpoint] m.
Proof.
  intros Hvia api. rewrite Hvia.
  pose proof (fetchData_footprint endpoint e api) as H.
  destruct (fetchData endpoint e api) as [[r api'] log]. exact H.
Qed.

Lemma probeAll_footprint steps : forall allTeams,
  footprint (map fst steps) (probeAll allTeams steps).
Proof.
  induction steps as [|[endpoint e] steps IH]; intros allTeams; cbn [probeAll map fst].
  - apply (footprint_pure (Ret allTeams)).
  - apply (footprint_andThen [endpoint] (map fst steps)); [|intros a; apply IH].
    unfold probe.
    apply (footprint_tryCatch [endpoint] []);
      [|intros err; apply (footprint_pure (Ret allTeams))].
    apply (footprint_andThen [endpoint] []); [apply fetchData_footprint|].
    intros payload.
    apply (footprint_andThen [] []); [apply footprint_pure|].
    intros found. apply (footprint_pure (Ret _)).
Qed.

Lemma fetchStandings_footprint competition season e :
  footprint [standingsEndpoint competition season] (fetchStandings competition season e).
Proof. eapply footprint_via. apply fetchStandings_via. Qed.

Lemma fetchMatches_footprint season e :
  footprint ["/eventsnextleague.php?id=4328"] (fetchMatches season e).
Proof. eapply footprint_via. apply fetchMatches_via. Qed.

Lemma fetchCompetitionMatches_footprint competition season e :
  footprint [pastEventsEndpoint competition]
            (fetchCompetitionMatches competition season e).
Proof. eapply footprint_via. apply fetchCompetitionMatches_via. Qed.

Lemma fetchTeams_footprint competition season e1 e2 e3 :
  footprint (teamEndpoints competition season) (fetchTeams competition season e1 e2 e3).
Proof.
  unfold fetchTeams.
  set (steps := zip (teamEndpoints competition season) [e1; e2; e3]).
  assert (teamEndpoints competition season = map fst steps) as -> by reflexivity.
  rewrite <- (app_nil_r (map fst steps)).
  apply footprint_andThen; [apply probeAll_footprint|].
  intros a. apply (footprint_pure (Ret _)).
Qed.

Lemma fetchAnalyticsData_footprint toFixed1 competition season e1 e2 :
  footprint [standingsEndpoint competition season; pastEventsEndpoint competition]
            (fetchAnalyticsData toFixed1 competition season e1 e2).
Proof.
  unfold fetchAnalyticsData.
  apply (footprint_tryCatch [_; _] []);
    [|intros err; apply (footprint_pure (Ret _))].
  apply (footprint_andThen [_; _] []).
  - apply (footprint_promiseAll2 [_] [_]);
      [apply fetchStandings_footprint | apply fetchCompetitionMatches_footprint].
  - intros [sr mr]. apply (footprint_pure (Ret _)).
Qed.

(** X1.  [fetchData] requests at most the URL of its endpoint, changes the
    cache at no other key and drops no cache entry; every normaliser does
    so for its own endpoints, in their order: one endpoint for standings,
    next matches, past matches, top scorers, line-up, event statistics and
    timeline, three for teams, the standings and past matches endpoints for
    the analytics; [fetchSeasons] touches nothing. *)
Theorem api_footprint (toFixed1 : Q -> Z) (endpoint competition eventId : string)
    (season : option string) (e1 e2 e3 : FetchEnv) :
  footprint [endpoint] (fetchData endpoint e1)
  /\ footprint [standingsEndpoint competition season]
               (fetchStandings competition season e1)
  /\ footprint ["/eventsnextleague.php?id=4328"] (fetchMatches season e1)
  /\ footprint [pastEventsEndpoint competition]
               (fetchCompetitionMatches competition season e1)
  /\ footprint (teamEndpoints competition season)
               (fetchTeams competition season e1 e2 e3)
  /\ footprint [topScorersEndpoint competition season]
               (fetchTopScorers competition season e1)
  /\ footprint [standingsEndpoint competition season; pastEventsEndpoint competition]
               (fetchAnalyticsData toFixed1 competition season e1 e2)
  /\ footprint ["/lookuplineup.php?id=" +:+ eventId] (fetchLineup eventId e1)
  /\ footprint ["/lookupeventstats.php?id=" +:+ eventId] (fetchEventStats eventId e1)
  /\ footprint ["/lookuptimeline.php?id=" +:+ eventId] (fetchTimeline eventId e1)
  /\ footprint [] (fetchSeasons competition).
Proof.
  split; [apply fetchData_footprint|].
  split; [apply fetchStandings_footprint|].
  split; [apply fetchMatches_footprint|].
  split; [apply fetchCompetitionMatches_footprint|].
  split; [apply fetchTeams_footprint|].
  split; [eapply footprint_via; apply fetchTopScorers_via|].
  split; [apply fetchAnalyticsData_footprint|].
  split; [eapply footprint_via; apply fetchLineup_via|].
  split; [eapply footprint_via; apply fetchEventStats_via|].
  split; [eapply footprint_via; apply fetchTimeline_via|].
  apply (footprint_pure (Ret _)).
Qed.

Lemma loadTab_footprint tabId competition season e1 e2 e3 :
  footprint (tabEndpoints tabId competition season)
            (loadTab tabId competition season e1 e2 e3).
Proof.
  pose proof (fetchStandings_footprint competition season e1) as Hs.
  pose proof (fetchMatches_footprint season e1) as Hm.
  pose proof (fetchCompetitionMatches_footprint competition season e1) as Hp.
  pose proof (fetchTeams_footprint competition season e1 e2 e3) as Ht.
  unfold loadTab, tabEndpoints, tabEndpoint. cbn [existsb].
  destruct (String.eqb_spec tabId "live-matches") as [->|_].
  { cbn. unfold loadLiveMatches.
    apply (footprint_andThen [_] []); [exact Hm|].
    intros r. destruct (_ =? 0)%nat; apply (footprint_pure (Ret _)). }
  destruct (String.eqb_spec tabId "league-tables") as [->|_].
  { cbn. unfold loadLeagueStandings.
    apply (footprint_andThen [_] []); [exact Hs|].
    intros r. apply (footprint_pure (Ret _)). }
  destruct (String.eqb_spec tabId "team-stats") as [->|_].
  { unfold loadTeamStatistics.
    rewrite <- (app_nil_r (teamEndpoints competition season)).
    apply footprint_andThen; [exact Ht|].
    intros r. apply (footprint_pure (Ret _)). }
  destruct (String.eqb_spec tabId "recent-results") as [->|_].
  { cbn. unfold loadRecentResults.
    apply (footprint_andThen [_] []); [exact Hp|].
    intros r. apply (footprint_pure (Ret _)). }
  cbn. apply (footprint_pure (Ret _)).
Qed.

Lemma filter_isRequest_map urls :
  List.filter isRequest (map Request urls) = map Request urls.
Proof. induction urls as [|u r IH]; cbn; [reflexivity | rewrite IH; reflexivity]. Qed.

Lemma switchTab_requests_are tm tabId competition season e1 e2 e3 :
  List.filter isRequest (snd (switchTab tm tabId competition season e1 e2 e3))
  = map Request
        (snd (loadTab tabId competition season e1 e2 e3 (api tm))).
Proof.
  unfold switchTab.
  destruct (loadTab tabId competition season e1 e2 e3 (api tm)) as [[r api'] urls].
  cbn [snd app List.filter isRequest].
  rewrite List.filter_app, filter_isRequest_map.
  destruct r; cbn; rewrite app_nil_r; reflexivity.
Qed.

Lemma tabEndpoints_length tabId competition season :
  (length (tabEndpoints tabId competition season) <= 3)%nat
  /\ (tabId <> "team-stats" ->
      (length (tabEndpoints tabId competition season) <= 1)%nat).
Proof.
  unfold tabEndpoints.
  destruct (String.eqb_spec tabId "team-stats") as [->|Hne].
  - split; [cbn; lia | congruence].
  - destruct (existsb _ _); cbn; split; intros; lia.
Qed.

(** X2.  The requests of one [switchTab] are among the endpoints of its
    tab, in their order: at most three, at most one unless the tab is
    'team-stats', none for an unknown tab.  The call changes the cache at
    no other key, and over a whole session of [switchTab] calls no cache
    entry is dropped. *)
Theorem switchTab_footprint (tm : TabManager) (tabId competition : string)
    (season : option string) (e1 e2 e3 : FetchEnv) :
  let '(tm', effects) := switchTab tm tabId competition season e1 e2 e3 in
  let requests := List.filter isRequest effects in
  sublist requests
          (map (fun k => Request (fullUrl k)) (tabEndpoints tabId competition season))
  /\ (length requests <= 3)%nat
  /\ (tabId <> "team-stats" -> (length requests <= 1)%nat)
  /\ (~ In tabId knownTabs -> requests = [])
  /\ (forall k, ~ In k (tabEndpoints tabId competition season) ->
                cache (api tm') !! k = cache (api tm) !! k)
  /\ (forall calls k,
        is_Some (cache (api tm) !! k) ->
        is_Some (cache (api (runSwitches tm' calls)) !! k)).
Proof.
  pose proof (switchTab_requests_are tm tabId competition season e1 e2 e3) as Hreq.
  pose proof (loadTab_footprint tabId competition season e1 e2 e3 (api tm)) as Hfp.
  assert (forall calls m k,
            is_Some (cache (api m) !! k) ->
            is_Some (cache (api (runSwitches m calls)) !! k)) as Hsession.
  { induction calls as [|c calls IH]; intros m k Hk; [exact Hk|].
    cbn. apply IH. unfold switchCall, switchTab.
    pose proof (loadTab_footprint (callTab c) (callCompetition c) (callSeason c)
                  (callEnv1 c) (callEnv2 c) (callEnv3 c) (api m)) as H.
    destruct (loadTab _ _ _ _ _ _ (api m)) as [[r api'] urls].
    destruct H as (_ & _ & Hkeep). cbn. apply Hkeep, Hk. }
  unfold switchTab in *.
  destruct (loadTab tabId competition season e1 e2 e3 (api tm)) as [[r api'] urls].
  cbn [snd] in Hreq. cbv zeta. rewrite Hreq.
  destruct Hfp as (Hlog & Hother & Hkeep).
  assert (sublist (map Request urls)
            (map (fun k => Request (fullUrl k)) (tabEndpoints tabId competition season)))
    as Hsub.
  { rewrite <- (map_map fullUrl Request). apply (fmap_sublist Request). exact Hlog. }
  pose proof (sublist_length _ _ Hsub) as Hlen. rewrite !length_map in Hlen.
  destruct (tabEndpoints_length tabId competition season) as [H3 H1].
  rewrite length_map.
  split; [exact Hsub|]. split; [lia|]. split; [intros Hne; specialize (H1 Hne); lia|].
  split.
  { intros Hn. assert (tabEndpoints tabId competition season = []) as E.
    { unfold tabEndpoints. cbn [existsb].
      repeat match goal with
             | |- context [String.eqb tabId ?k] =>
                 destruct (String.eqb_spec tabId k) as [->|_];
                 [exfalso; apply Hn; cbn; tauto|]
             end.
      reflexivity. }
    rewrite E in Hlen. destruct urls; [reflexivity | cbn in Hlen; lia]. }
  split; [exact Hother|].
  intros calls k Hk. apply Hsession. cbn. apply Hkeep, Hk.
Qed.

Lemma switchTab_footprint_witness :
  let down := {| checkTime := 0; response := NetworkError; doneTime := 0 |} in
  (length (List.filter isRequest
             (snd (switchTab (newTabManager "live-matches") "league-tables" "PL" None
                     down down down))) <= 1)%nat.
Proof.
  intros down.
  pose proof (switchTab_footprint (newTabManager "live-matches") "league-tables" "PL"
                None down down down) as H.
  destruct (switchTab _ _ _ _ _ _ _) as [tm' effects].
  destruct H as (_ & _ & H & _). apply H. discriminate.
Defined.

(** ** Standings *)

Lemma getLeagueId_cases competition :
  In (getLeagueId competition) ["4328"; "4335"; "4332"; "4331"; "4334"].
Proof.
  unfold getLeagueId, leagueMap. cbn [assoc].
  repeat match goal with
         | |- context [String.eqb competition ?k] => destruct (String.eqb competition k)
         end; cbn; tauto.
Qed.

Lemma standingsRowOf_readable index row :
  rowReadable row = true -> exists r, standingsRowOf index row = Ret r.
Proof.
  unfold rowReadable, standingsRowOf.
  destruct row; try discriminate; cbn; try (intros _; eexists; reflexivity).
  destruct (default VUndefined (assoc "strTeam" fields)); try discriminate;
    intros _; cbn; eexists; reflexivity.
Qed.

Lemma standingsRowOf_unreadable index row :
  rowReadable row = false -> exists err, standingsRowOf index row = Raise err.
Proof.
  unfold rowReadable, standingsRowOf.
  destruct row; try discriminate; cbn; try (intros _; eexists; reflexivity).
  destruct (default VUndefined (assoc "strTeam" fields)); try discriminate;
    intros _; cbn; eexists; reflexivity.
Qed.

Lemma mapiFrom_readable rows : forall i,
  forallb rowReadable rows = true ->
  exists rs, mapiFrom standingsRowOf i rows = Ret rs /\ length rs = length rows.
Proof.
  induction rows as [|row rows IH]; intros i H; cbn in *.
  - exists []. split; reflexivity.
  - apply andb_true_iff in H as [Hrow Hrest].
    destruct (standingsRowOf_readable i row Hrow) as (r & ->).
    destruct (IH (S i) Hrest) as (rs & -> & Hlen).
    exists (r :: rs). cbn. split; [reflexivity | lia].
Qed.

Lemma mapiFrom_unreadable rows : forall i,
  forallb rowReadable rows = false ->
  exists err, mapiFrom standingsRowOf i rows = Raise err.
Proof.
  induction rows as [|row rows IH]; intros i H; cbn in *; [discriminate|].
  destruct (rowReadable row) eqn:Hrow; cbn in H.
  - destruct (standingsRowOf_readable i row Hrow) as (r & ->).
    destruct (IH (S i) H) as (err & ->). exists err. reflexivity.
  - destruct (standingsRowOf_unreadable i row Hrow) as (err & ->).
    exists err. reflexivity.
Qed.

(** X3.  When [fetchData] hands [fetchStandings] a payload whose [table] is
    an array, the result has one row for each source row, in particular no
    row for an empty array (the mock dataset is not used), provided every
    row is readable; a [null] row, or a row whose team name is not a
    string, makes [fetchStandings] throw. *)
Theorem fetchStandings_rows (competition : string) (season : option string)
    (e : FetchEnv) (api api' : FootballAPI) (log : list string) (payload : value)
    (rows : list value) :
  fetchData (standingsEndpoint competition season) e api = (Ret payload, api', log) ->
  get payload "table" = Ret (VArr rows) ->
  (forallb rowReadable rows = true ->
   exists r, fetchStandings competition season e api = (Ret r, api', log)
             /\ length (firstTable r) = length rows
             /\ competitionCode r = competition)
  /\ (forallb rowReadable rows = false ->
      exists err, fetchStandings competition season e api = (Raise err, api', log)).
Proof.
  intros Hf Hget. rewrite fetchStandings_via, Hf. cbn [Js.bind].
  unfold standingsOfPayload. rewrite Hget. cbn [Js.bind isArray]. unfold mapi.
  split; intros Hrows.
  - destruct (mapiFrom_readable rows 0 Hrows) as (rs & -> & Hlen).
    eexists. split; [reflexivity|]. cbn. split; [exact Hlen | reflexivity].
  - destruct (mapiFrom_unreadable rows 0 Hrows) as (err & ->).
    exists err. reflexivity.
Qed.

Lemma fetchStandings_rows_witness :
  let e := {| checkTime := 0;
              response := HttpResponse 200 (Some (VObj [("table", VArr [])]));
              doneTime := 5 |} in
  exists r api' log,
    fetchStandings "PL" None e newFootballAPI = (Ret r, api', log)
    /\ length (firstTable r) = 0%nat.
Proof.
  intros e.
  destruct (fetchData (standingsEndpoint "PL" None) e newFootballAPI)
    as [[r0 api'] log] eqn:Hf.
  vm_compute in Hf. injection Hf as <- <- <-.
  destruct (fetchStandings_rows "PL" None e newFootballAPI _ _
              (VObj [("table", VArr [])]) [] eq_refl eq_refl) as [H _].
  destruct (H eq_refl) as (r & Hr & Hlen & _).
  exists r. eexists _, _. split; [exact Hr | exact Hlen].
Defined.

Lemma mock_table_rows :
  exists l rows,
    get mockTablePayload "table" = Ret (VArr l)
    /\ mapi standingsRowOf l = Ret rows
    /\ map position rows = [1; 2; 3; 4]
    /\ map (fun row => ref_name (team row)) rows
       = map VStr ["Liverpool"; "Arsenal"; "Manchester City"; "Chelsea"]
    /\ map points rows = [36; 32; 31; 28].
Proof.
  eexists _, _. split; [reflexivity|]. split; [vm_compute; reflexivity|].
  vm_compute. repeat split.
Qed.

Lemma standings_mock_choice competition season now :
  let ep := standingsEndpoint competition season in
  (includes ep "search_all_teams" || includes ep "teams" = true
   /\ getMockData ep now = mockTeamsPayload)
  \/ (includes ep "search_all_teams" || includes ep "teams" = false
      /\ getMockData ep now = mockTablePayload).
Proof.
  intros ep. unfold getMockData.
  destruct (includes ep "search_all_teams" || includes ep "teams");
    [left; split; reflexivity|].
  right. split; [reflexivity|]. unfold ep, standingsEndpoint. reflexivity.
Qed.

Lemma offered_season_endpoint competition season :
  In season (None :: map Some offeredSeasons) ->
  let ep := standingsEndpoint competition season in
  includes ep "search_all_teams" || includes ep "teams" = false.
Proof.
  intros Hs ep. unfold ep, standingsEndpoint.
  pose proof (getLeagueId_cases competition) as Hid.
  destruct Hid as [<-|[<-|[<-|[<-|[<-|[]]]]]];
    destruct Hs as [<-|[<-|[<-|[<-|[]]]]]; vm_compute; reflexivity.
Qed.

(** X4.  When the live call for the standings fails, [fetchStandings] does
    not throw and leaves the cache alone.  Its table is the fetch layer's
    substitute, four Premier League rows with positions 1 to 4 whatever
    the competition asked for, or else the normaliser's own mock dataset;
    it is the four rows when no season, or a season [fetchSeasons] offers,
    was asked for. *)
Theorem fetchStandings_provider_down (competition : string) (season : option string)
    (e : FetchEnv) (api : FootballAPI) :
  liveFailure api (standingsEndpoint competition season) e ->
  exists r,
    fetchStandings competition season e api
    = (Ret r, api, [fullUrl (standingsEndpoint competition season)])
    /\ competitionCode r = competition
    /\ competitionName r = getCompetitionName competition
    /\ (r = getMockStandingsData competition season
        \/ (map position (firstTable r) = [1; 2; 3; 4]
            /\ map (fun row => ref_name (team row)) (firstTable r)
               = map VStr ["Liverpool"; "Arsenal"; "Manchester City"; "Chelsea"]))
    /\ (In season (None :: map Some offeredSeasons) ->
        map position (firstTable r) = [1; 2; 3; 4]
        /\ map (fun row => ref_name (team row)) (firstTable r)
           = map VStr ["Liverpool"; "Arsenal"; "Manchester City"; "Chelsea"]).
Proof.
  intros [Hmiss Hfail].
  rewrite fetchStandings_via, (fetchData_live_fail _ _ _ Hmiss Hfail). cbn [Js.bind].
  destruct mock_table_rows as (l & rows & Hget & Hmap & Hpos & Hnames & _).
  destruct (standings_mock_choice competition season (doneTime e))
    as [[Hinc ->]|[Hinc ->]].
  - exists (getMockStandingsData competition season).
    split; [reflexivity|]. split; [reflexivity|]. split; [reflexivity|].
    split; [left; reflexivity|].
    intros Hs. pose proof (offered_season_endpoint competition season Hs) as Hno.
    cbv zeta in Hno, Hinc. congruence.
  - unfold standingsOfPayload. rewrite Hget. cbn [Js.bind isArray]. rewrite Hmap.
    cbn [Js.bind]. eexists. split; [reflexivity|].
    cbn [competitionCode competitionName firstTable standings table].
    split; [reflexivity|]. split; [reflexivity|].
    split; [right; split; assumption | intros _; split; assumption].
Qed.

Lemma fetchStandings_provider_down_witness :
  let down := {| checkTime := 0; response := HttpResponse 500 None; doneTime := 0 |} in
  exists r,
    fetchStandings "PD" (Some "2023-2024") down newFootballAPI
    = (Ret r, newFootballAPI, [fullUrl (standingsEndpoint "PD" (Some "2023-2024"))])
    /\ competitionName r = "La Liga"
    /\ map position (firstTable r) = [1; 2; 3; 4].
Proof.
  intros down.
  destruct (fetchStandings_provider_down "PD" (Some "2023-2024") down newFootballAPI)
    as (r & Hr & _ & Hname & _ & Hrows); [split; reflexivity|].
  exists r. split; [exact Hr|]. split; [exact Hname|].
  apply Hrows. cbn. tauto.
Defined.





(** ** Matches *)

Lemma mapM_inv {A B} (f : A -> outcome B) l : forall ms,
  mapM f l = Ret ms ->
  length ms = length l
  /\ forall m, In m ms -> exists x, In x l /\ f x = Ret m.
Proof.
  induction l as [|x l IH]; intros ms H; cbn in H.
  - injection H as <-. split; [reflexivity | intros m []].
  - destruct (f x) as [y|] eqn:Ey; cbn in H; [|discriminate].
    destruct (mapM f l) as [ys|] eqn:Eys; cbn in H; [|discriminate].
    injection H as <-. destruct (IH ys eq_refl) as [Hlen Hin].
    split; [cbn; lia|].
    intros m [<-|Hm].
    + exists x. split; [left; reflexivity | exact Ey].
    + destruct (Hin m Hm) as (x' & Hx' & Hf). exists x'. split; [right|]; assumption.
Qed.

Lemma filterM_inv {A} (p : A -> outcome bool) l : forall l',
  filterM p l = Ret l' ->
  forall x, In x l' -> In x l /\ p x = Ret true.
Proof.
  induction l as [|a l IH]; intros l' H x Hx; cbn in H.
  - injection H as <-. destruct Hx.
  - destruct (p a) as [b|] eqn:Ea; cbn in H; [|discriminate].
    destruct (filterM p l) as [ys|] eqn:Eys; cbn in H; [|discriminate].
    injection H as <-. destruct b.
    + destruct Hx as [<-|Hx]; [split; [left; reflexivity | exact Ea]|].
      destruct (IH ys eq_refl x Hx). split; [right|]; assumption.
    + destruct (IH ys eq_refl x Hx). split; [right|]; assumption.
Qed.

(** The fields of a match that depend on the event alone. *)
Lemma matchOf_fields label season event m :
  matchOf label season event = Ret m ->
  status m = (if eqStr (prop event "strStatus") "Match Finished" then "FINISHED"
              else if eqStr (prop event "strStatus") "Not Started" then "SCHEDULED"
              else "IN_PLAY")
  /\ matchCompetition m = label
  /\ matchSeason m = Js.or (prop event "strSeason") (VStr (seasonOrDefault season)).
Proof.
  unfold matchOf, sideOf. intros H.
  repeat match type of H with
         | Js.bind ?m _ = Ret _ =>
             let E := fresh "E" in
             destruct m eqn:E; cbn [Js.bind] in H; [|discriminate H]
         end.
  injection H as <-. cbn.
  repeat match goal with
         | E : get event _ = Ret _ |- _ => apply get_prop in E; subst
         end.
  repeat split.
Qed.

Lemma matchOf_status label season event m :
  matchOf label season event = Ret m ->
  In (status m) ["FINISHED"; "SCHEDULED"; "IN_PLAY"].
Proof.
  intros H. destruct (matchOf_fields _ _ _ _ H) as (-> & _).
  destruct (eqStr _ "Match Finished"); [cbn; tauto|].
  destruct (eqStr _ "Not Started"); cbn; tauto.
Qed.

Lemma nextMatchesOfPayload_ok season payload r :
  nextMatchesOfPayload season payload = Ret r ->
  matchCount r = length (matches r)
  /\ List.Forall (fun m => In (status m) ["FINISHED"; "SCHEDULED"; "IN_PLAY"]
                           /\ matchCompetition m = "Premier League")
                 (matches r).
Proof.
  unfold nextMatchesOfPayload. intros H.
  destruct (get payload "events") as [events|]; cbn [Js.bind] in H; [|discriminate].
  destruct (truthy events).
  - destruct (isArray events) as [l|]; [|discriminate].
    destruct (mapM _ l) as [ms|] eqn:Hms; cbn [Js.bind] in H; [|discriminate].
    injection H as <-. cbn. split; [reflexivity|].
    apply List.Forall_forall. intros m Hm.
    destruct (mapM_inv _ _ _ Hms) as [_ Hin].
    destruct (Hin m Hm) as (x & _ & Hx).
    split; [eapply matchOf_status; exact Hx|].
    apply (matchOf_fields _ _ _ _ Hx).
  - injection H as <-. split; [reflexivity | constructor].
Qed.

Lemma eqStr_true v s : eqStr v s = true -> v = VStr s.
Proof.
  destruct v; cbn; try discriminate. intros H. apply String.eqb_eq in H. congruence.
Qed.

Lemma seasonGiven_nonempty season s :
  seasonGiven season = Some s -> truthy (VStr s) = true.
Proof.
  unfold seasonGiven. destruct season as [t|]; [|discriminate].
  destruct (String.eqb t "") eqn:E; [discriminate|].
  intros [= <-]. cbn. rewrite E. reflexivity.
Qed.

Lemma pastMatchesOfPayload_ok competition season payload r :
  pastMatchesOfPayload competition season payload = Ret r ->
  matchCount r = length (matches r)
  /\ List.Forall (fun m => In (status m) ["FINISHED"; "SCHEDULED"; "IN_PLAY"]
                           /\ matchCompetition m = getCompetitionName competition
                           /\ forall s, seasonGiven season = Some s ->
                                        matchSeason m = VStr s)
                 (matches r).
Proof.
  unfold pastMatchesOfPayload. intros H.
  destruct (get payload "events") as [eventsv|]; cbn [Js.bind] in H; [|discriminate].
  destruct (isArray eventsv) as [all|].
  - destruct (match seasonGiven season with Some _ => _ | None => _ end)
      as [events|] eqn:Hev; cbn [Js.bind] in H; [|discriminate].
    destruct (mapM _ events) as [ms|] eqn:Hms; cbn [Js.bind] in H; [|discriminate].
    injection H as <-. cbn. split; [reflexivity|].
    apply List.Forall_forall. intros m Hm.
    destruct (mapM_inv _ _ _ Hms) as [_ Hin].
    destruct (Hin m Hm) as (x & Hxin & Hx).
    split; [eapply matchOf_status; exact Hx|].
    destruct (matchOf_fields _ _ _ _ Hx) as (_ & Hlabel & Hseason).
    split; [exact Hlabel|].
    intros s Hs. rewrite Hs in Hev.
    destruct (filterM_inv _ _ _ Hev x Hxin) as [_ Hp].
    destruct (get x "strSeason") as [v|] eqn:Hget; cbn [Js.bind] in Hp; [|discriminate].
    injection Hp as Hp. apply eqStr_true in Hp. subst v.
    apply get_prop in Hget. rewrite Hseason, <- Hget.
    unfold Js.or. rewrite (seasonGiven_nonempty _ _ Hs). reflexivity.
  - injection H as <-. split; [reflexivity | constructor].
Qed.

Lemma fetchMatches_ok season e api r api' log :
  fetchMatches season e api = (Ret r, api', log) ->
  exists p, nextMatchesOfPayload season p = Ret r.
Proof.
  rewrite fetchMatches_via.
  destruct (fetchData _ e api) as [[[p|err] a] l]; cbn [Js.bind]; [|discriminate].
  intros [= H _ _]. eauto.
Qed.

Lemma fetchCompetitionMatches_ok competition season e api r api' log :
  fetchCompetitionMatches competition season e api = (Ret r, api', log) ->
  exists p, pastMatchesOfPayload competition season p = Ret r.
Proof.
  rewrite fetchCompetitionMatches_via.
  destruct (fetchData _ e api) as [[[p|err] a] l]; cbn [Js.bind]; [|discriminate].
  intros [= H _ _]. eauto.
Qed.

(** X6.  Whatever the provider sends, a result of [fetchMatches] or of
    [fetchCompetitionMatches] has [count] equal to the number of its
    matches, and every match has status FINISHED, SCHEDULED or IN_PLAY
    (never LIVE).  [fetchMatches] labels every match 'Premier League';
    [fetchCompetitionMatches] labels it with the display name of the
    competition asked for. *)
Theorem matches_normal_form (competition : string) (season : option string)
    (e : FetchEnv) (api api' : FootballAPI) (log : list string) (r : MatchesResult) :
  (fetchMatches season e api = (Ret r, api', log) ->
   matchCount r = length (matches r)
   /\ List.Forall (fun m => In (status m) ["FINISHED"; "SCHEDULED"; "IN_PLAY"]
                            /\ status m <> "LIVE"
                            /\ matchCompetition m = "Premier League")
                  (matches r))
  /\ (fetchCompetitionMatches competition season e api = (Ret r, api', log) ->
      matchCount r = length (matches r)
      /\ List.Forall (fun m => In (status m) ["FINISHED"; "SCHEDULED"; "IN_PLAY"]
                               /\ status m <> "LIVE"
                               /\ matchCompetition m = getCompetitionName competition)
                     (matches r)).
Proof.
  assert (forall s, In s ["FINISHED"; "SCHEDULED"; "IN_PLAY"] -> s <> "LIVE") as Hlive
    by (intros s [<-|[<-|[<-|[]]]]; discriminate).
  split; intros H.
  - apply fetchMatches_ok in H as (p & Hp).
    destruct (nextMatchesOfPayload_ok _ _ _ Hp) as [Hc Hall].
    split; [exact Hc|]. eapply List.Forall_impl; [|exact Hall].
    intros m (Hs & Hl). auto.
  - apply fetchCompetitionMatches_ok in H as (p & Hp).
    destruct (pastMatchesOfPayload_ok _ _ _ _ Hp) as [Hc Hall].
    split; [exact Hc|]. eapply List.Forall_impl; [|exact Hall].
    intros m (Hs & Hl & _). auto.
Qed.

Lemma matches_normal_form_witness :
  let down := {| checkTime := 0; response := NetworkError; doneTime := 0 |} in
  exists r api' log,
    fetchMatches (Some "2023-2024") down newFootballAPI = (Ret r, api', log)
    /\ matchCount r = 6%nat
    /\ List.Forall (fun m => matchCompetition m = "Premier League") (matches r).
Proof.
  intros down.
  destruct (fetchMatches (Some "2023-2024") down newFootballAPI) as [[[r|err] api'] log] eqn:E;
    [|vm_compute in E; discriminate E].
  exists r, api', log. split; [reflexivity|].
  destruct (matches_normal_form "PL" (Some "2023-2024") down newFootballAPI api' log r)
    as [H _].
  destruct (H E) as [Hc Hall].
  split.
  - rewrite Hc. vm_compute in E. injection E as <- _ _. reflexivity.
  - eapply List.Forall_impl; [|exact Hall]. intros m (_ & _ & Hl). exact Hl.
Defined.

(** X7.  When a season is asked for, every match [fetchCompetitionMatches]
    returns carries exactly that season: events of other seasons, and
    events without a season, are filtered out. *)
Theorem past_matches_of_season (competition s : string) (season : option string)
    (e : FetchEnv) (api api' : FootballAPI) (log : list string) (r : MatchesResult) :
  seasonGiven season = Some s ->
  fetchCompetitionMatches competition season e api = (Ret r, api', log) ->
  List.Forall (fun m => matchSeason m = VStr s) (matches r).
Proof.
  intros Hs H. apply fetchCompetitionMatches_ok in H as (p & Hp).
  destruct (pastMatchesOfPayload_ok _ _ _ _ Hp) as [_ Hall].
  eapply List.Forall_impl; [|exact Hall].
  intros m (_ & _ & Hm). apply Hm, Hs.
Qed.

Lemma past_matches_of_season_witness :
  let e := {| checkTime := 0;
              response := HttpResponse 200 (Some (VObj [("events",
                VArr [VObj [("idEvent", VStr "1"); ("strSeason", VStr "2023-2024")];
                      VObj [("idEvent", VStr "2"); ("strSeason", VStr "2024-2025")];
                      VObj [("idEvent", VStr "3")]])]));
              doneTime := 0 |} in
  exists r api' log,
    fetchCompetitionMatches "PL" (Some "2023-2024") e newFootballAPI = (Ret r, api', log)
    /\ map matchId (matches r) = [VStr "1"]
    /\ List.Forall (fun m => matchSeason m = VStr "2023-2024") (matches r).
Proof.
  intros e.
  destruct (fetchCompetitionMatches "PL" (Some "2023-2024") e newFootballAPI)
    as [[[r|err] api'] log] eqn:E; [|vm_compute in E; discriminate E].
  exists r, api', log. split; [reflexivity|].
  split.
  - vm_compute in E. injection E as <- _ _. reflexivity.
  - exact (past_matches_of_season "PL" "2023-2024" (Some "2023-2024") e newFootballAPI
             api' log r eq_refl E).
Defined.

(** ** What the match tabs store *)

Lemma storedData_requests urls : storedData (map Request urls) = [].
Proof. induction urls as [|u r IH]; [reflexivity | exact IH]. Qed.

Lemma storedData_switchTab tm tabId competition season e1 e2 e3 :
  storedData (snd (switchTab tm tabId competition season e1 e2 e3))
  = match fst (fst (loadTab tabId competition season e1 e2 e3 (api tm))) with
    | Ret d => [d]
    | Raise _ => [errorPayload]
    end.
Proof.
  unfold switchTab.
  destruct (loadTab tabId competition season e1 e2 e3 (api tm)) as [[r api'] urls].
  cbn [fst snd]. unfold storedData.
  rewrite !omap_app. fold (storedData (map Request urls)).
  rewrite storedData_requests. destruct r; reflexivity.
Qed.



Lemma filter_all {A} (f : A -> bool) l : List.Forall (fun x => f x = true) (List.filter f l).
Proof.
  apply List.Forall_forall. intros x Hx. apply List.filter_In in Hx. tauto.
Qed.



(** ** Teams: the top-up is enough *)









(** ** Analytics: the derived figures *)

Lemma fold_best rows : forall best,
  let res := fold_left
               (fun best row =>
                  if goalsFor row >? match best with Some b => goalsFor b | None => 0 end
                  then Some row else best) rows best in
  bestGoals best <= bestGoals res
  /\ (forall r, In r rows -> goalsFor r <= bestGoals res)
  /\ (res = best
      \/ exists pre row post,
           rows = (pre ++ row :: post)%list /\ res = Some row
           /\ bestGoals best < goalsFor row
           /\ forall r, In r pre -> goalsFor r < goalsFor row).
Proof.
  induction rows as [|x rest IH]; intros best; cbn [fold_left].
  - cbv zeta. split; [lia|]. split; [intros r []|]. left. reflexivity.
  - fold (bestGoals best).
    destruct (Z.gtb_spec (goalsFor x) (bestGoals best)) as [Hgt|Hle].
    + specialize (IH (Some x)). cbv zeta in IH |- *.
      destruct IH as (Hmono & Hall & Hres). cbn [bestGoals] in Hmono.
      split; [lia|]. split.
      * intros r [<-|Hr]; [exact Hmono | apply Hall, Hr].
      * right. destruct Hres as [->|(pre & row & post & -> & -> & Hlt & Hpre)].
        -- exists [], x, rest. repeat split; [exact Hgt | intros r []].
        -- exists (x :: pre), row, post. cbn [bestGoals] in Hlt.
           repeat split; [lia|]. intros r [<-|Hr]; [exact Hlt | apply Hpre, Hr].
    + specialize (IH best). cbv zeta in IH |- *.
      destruct IH as (Hmono & Hall & Hres).
      split; [exact Hmono|]. split.
      * intros r [<-|Hr]; [lia | apply Hall, Hr].
      * destruct Hres as [->|(pre & row & post & -> & -> & Hlt & Hpre)];
          [left; reflexivity|].
        right. exists (x :: pre), row, post.
        repeat split; [exact Hlt|]. intros r [<-|Hr]; [lia | apply Hpre, Hr].
Qed.

(** X11.  In the analytics summary the top scorer figure is the largest
    goalsFor of the table, or 0 when no row has a positive goalsFor (the
    team is then 'Unknown'); the top scoring team is the first row that
    reaches that figure. *)
Theorem summary_top_scorer (toFixed1 : Q -> Z) (rows : list StandingsRow)
    (finished : list Match) :
  let s := summarize toFixed1 rows finished in
  (forall r, In r rows -> goalsFor r <= topScorerGoals s)
  /\ ((topScorerGoals s = 0 /\ topScoringTeam s = VStr "Unknown")
      \/ exists pre row post,
           rows = (pre ++ row :: post)%list
           /\ topScorerGoals s = goalsFor row /\ 0 < goalsFor row
           /\ topScoringTeam s = Js.or (ref_name (team row)) (VStr "Unknown")
           /\ forall r, In r pre -> goalsFor r < goalsFor row).
Proof.
  cbv zeta. unfold summarize. cbn [topScorerGoals topScoringTeam].
  pose proof (fold_best rows None) as H. cbv zeta in H.
  destruct H as (_ & Hall & Hres).
  set (res := fold_left _ rows None) in *.
  split; [exact Hall|].
  destruct Hres as [->|(pre & row & post & Hrows & -> & Hlt & Hpre)].
  - left. split; reflexivity.
  - right. exists pre, row, post. cbn [bestGoals] in Hlt. repeat split; assumption.
Qed.

Lemma mathRound_half (p : Z) : mathRound (inject_Z p / 2) = (p + 1) / 2.
Proof.
  unfold mathRound, Qfloor, Qdiv, Qmult, Qplus, Qinv, inject_Z. cbn.
  change (Z.pos (1 * 2 * 2)) with (2 * 2). change (Z.pos (1 * 2)) with 2.
  replace (p * 1 * 2 + 1 * 2) with (2 * (p + 1)) by lia.
  apply Z.div_mul_cancel_l; lia.
Qed.

(** X12.  The league statistics of the summary are the totals of goalsFor,
    won and draw over the table, and for 'Matches' half the total of
    playedGames, an odd total being rounded up. *)
Theorem summary_league_stats (toFixed1 : Q -> Z) (rows : list StandingsRow)
    (finished : list Match) :
  leagueStats (summarize toFixed1 rows finished)
  = [("Goals", total goalsFor rows);
     ("Matches", (total playedGames rows + 1) / 2);
     ("Wins", total won rows);
     ("Draws", total draw rows)]
  /\ totalGoals (summarize toFixed1 rows finished) = total goalsFor rows
  /\ topTeams (summarize toFixed1 rows finished) = rows.
Proof.
  unfold summarize. cbn [leagueStats totalGoals topTeams].
  rewrite !fold_left_total, !Z.add_0_l, mathRound_half. repeat split.
Qed.

(** X13.  The recent matches of an analytics summary are at most 100 and
    all FINISHED, whatever the feeds return. *)
Theorem analytics_recent_matches (toFixed1 : Q -> Z) (competition : string)
    (season : option string) (e1 e2 : FetchEnv) (api : FootballAPI) :
  let '(r, _, _) := fetchAnalyticsData toFixed1 competition season e1 e2 api in
  exists s, r = Ret s
            /\ (length (recentMatches s) <= 100)%nat
            /\ List.Forall (fun m => status m = "FINISHED") (recentMatches s).
Proof.
  unfold fetchAnalyticsData, tryCatch, andThen, promiseAll2.
  destruct (fetchStandings competition season e1 api) as [[r1 api1] log1].
  destruct (fetchCompetitionMatches competition season e2 api1) as [[r2 api2] log2].
  destruct r1 as [sr|err1], r2 as [mr|err2]; unfold ret; cbv beta iota zeta;
    try (exists emptySummary; split; [reflexivity|]; split; [cbn; lia | constructor]).
  eexists. split; [reflexivity|]. unfold summarize. cbn [recentMatches].
  split.
  - rewrite length_take. lia.
  - apply List.Forall_forall. intros m Hm.
    apply list_elem_of_In in Hm. apply elem_of_take in Hm as (i & Hm & _).
    apply list_elem_of_lookup_2, list_elem_of_In, List.filter_In in Hm as [_ Hm].
    apply String.eqb_eq. exact Hm.
Qed.

(** ** Top scorers and event details *)





(** None of the fetch layer's substitutes has any of these fields. *)
Lemma getMockData_lacks endpoint now key :
  In key ["topscorers"; "lineup"; "eventstats"; "timeline"] ->
  get (getMockData endpoint now) key = Ret VUndefined.
Proof.
  intros Hk. unfold getMockData.
  destruct (_ || _); [|destruct (_ || _); [|destruct (_ || _)]];
    destruct Hk as [<-|[<-|[<-|[<-|[]]]]]; reflexivity.
Qed.

(** X15.  When the live call fails, [fetchTopScorers] returns the mock
    scorers of the competition and season, since no substitute payload of
    the fetch layer has a scorer list.  A live payload whose scorer list is
    an empty array gives an empty result, not the mock scorers. *)
Theorem fetchTopScorers_fallback (competition : string) (season : option string)
    (e : FetchEnv) (api : FootballAPI) :
  let ep := topScorersEndpoint competition season in
  (liveFailure api ep e ->
   fetchTopScorers competition season e api
   = (Ret (getMockTopScorers competition season), api, [fullUrl ep]))
  /\ (forall payload api' log,
        fetchData ep e api = (Ret payload, api', log) ->
        get payload "topscorers" = Ret (VArr []) ->
        fetchTopScorers competition season e api = (Ret [], api', log)).
Proof.
  intros ep. split.
  - intros [Hmiss Hfail].
    rewrite fetchTopScorers_via. fold ep.
    rewrite (fetchData_live_fail _ _ _ Hmiss Hfail). cbn [Js.bind].
    unfold topScorersOfPayload.
    rewrite getMockData_lacks by (cbn; tauto). reflexivity.
  - intros payload api' log Hf Hget.
    rewrite fetchTopScorers_via. fold ep. rewrite Hf. cbn [Js.bind].
    unfold topScorersOfPayload. rewrite Hget. reflexivity.
Qed.

Lemma fetchTopScorers_fallback_witness :
  let down := {| checkTime := 0; response := HttpResponse 429 None; doneTime := 0 |} in
  fetchTopScorers "SA" None down newFootballAPI
  = (Ret (getMockTopScorers "SA" None), newFootballAPI,
     [fullUrl (topScorersEndpoint "SA" None)]).
Proof.
  intros down.
  destruct (fetchTopScorers_fallback "SA" None down newFootballAPI) as [H _].
  apply H. split; reflexivity.
Defined.

Lemma detailOfPayload_truthy key payload v :
  detailOfPayload key payload = Ret v ->
  exists field, get v key = Ret field /\ truthy field = true.
Proof.
  unfold detailOfPayload.
  destruct (get payload key) as [field|] eqn:Hget; cbn [Js.bind]; [|discriminate].
  destruct (truthy field) eqn:Ht; intros [= <-].
  - exists field. split; assumption.
  - exists (VArr []). split; [|reflexivity]. cbn. rewrite String.eqb_refl. reflexivity.
Qed.

Lemma detailOfPayload_raises key payload :
  (exists err, detailOfPayload key payload = Raise err)
  <-> payload = VNull \/ payload = VUndefined.
Proof.
  unfold detailOfPayload. split.
  - intros [err H]. destruct payload; cbn in H; try discriminate; tauto.
  - intros [->| ->]; eexists; reflexivity.
Qed.

(** X16.  A value returned by [fetchLineup], [fetchEventStats] or
    [fetchTimeline] always has a truthy [lineup], [eventstats] or
    [timeline] field.  When the live call fails the value is the empty
    placeholder, never the substitute payload of the fetch layer; the
    functions throw exactly when the payload is [null]. *)
Theorem event_details (eventId : string) (e : FetchEnv) (api : FootballAPI) :
  let detail (key : string) (call : Api value) (ep : string) :=
    (forall v api' log,
       call api = (Ret v, api', log) ->
       exists field, get v key = Ret field /\ truthy field = true)
    /\ (liveFailure api ep e ->
        call api = (Ret (VObj [(key, VArr [])]), api, [fullUrl ep]))
    /\ (forall payload api' log,
          fetchData ep e api = (Ret payload, api', log) ->
          ((exists err, call api = (Raise err, api', log))
           <-> payload = VNull \/ payload = VUndefined)) in
  detail "lineup" (fetchLineup eventId e) ("/lookuplineup.php?id=" +:+ eventId)
  /\ detail "eventstats" (fetchEventStats eventId e)
            ("/lookupeventstats.php?id=" +:+ eventId)
  /\ detail "timeline" (fetchTimeline eventId e) ("/lookuptimeline.php?id=" +:+ eventId).
Proof.
  assert (forall key call ep,
            In key ["topscorers"; "lineup"; "eventstats"; "timeline"] ->
            (forall a, call a = let '(r, api', log) := fetchData ep e a in
                                (Js.bind r (detailOfPayload key), api', log)) ->
            (forall v api' log,
               call api = (Ret v, api', log) ->
               exists field, get v key = Ret field /\ truthy field = true)
            /\ (liveFailure api ep e ->
                call api = (Ret (VObj [(key, VArr [])]), api, [fullUrl ep]))
            /\ (forall payload api' log,
                  fetchData ep e api = (Ret payload, api', log) ->
                  ((exists err, call api = (Raise err, api', log))
                   <-> payload = VNull \/ payload = VUndefined))) as H.
  { intros key call ep Hkey Hvia. split; [|split].
    - intros v api' log. rewrite Hvia.
      destruct (fetchData ep e api) as [[[p|err] a] l]; cbn [Js.bind]; [|discriminate].
      intros [= Hd _ _]. eapply detailOfPayload_truthy. exact Hd.
    - intros [Hmiss Hfail]. rewrite Hvia, (fetchData_live_fail _ _ _ Hmiss Hfail).
      cbn [Js.bind]. unfold detailOfPayload.
      rewrite getMockData_lacks by exact Hkey. reflexivity.
    - intros payload api' log Hf. rewrite Hvia, Hf. cbn [Js.bind].
      rewrite <- (detailOfPayload_raises key payload).
      split; intros [err Herr]; exists err; congruence. }
  cbv zeta. split; [|split].
  - apply H; [cbn; tauto | intros a; apply fetchLineup_via].
  - apply H; [cbn; tauto | intros a; apply fetchEventStats_via].
  - apply H; [cbn; tauto | intros a; apply fetchTimeline_via].
Qed.

Lemma event_details_witness :
  let down := {| checkTime := 0; response := NetworkError; doneTime := 0 |} in
  fetchEventStats "441613" down newFootballAPI
  = (Ret (VObj [("eventstats", VArr [])]), newFootballAPI,
     [fullUrl "/lookupeventstats.php?id=441613"]).
Proof.
  intros down.
  destruct (event_details "441613" down newFootballAPI) as (_ & (_ & H & _) & _).
  apply H. split; reflexivity.
Defined.

(** ** Switching to the same tab again *)

Lemma loadTab_via tabId competition season e1 e2 e3 api :
  In tabId ["live-matches"; "league-tables"; "recent-results"] ->
  loadTab tabId competition season e1 e2 e3 api =
  let '(r, api', log) := fetchData (tabEndpoint tabId competition season) e1 api in
  (Js.bind r (tabDataOfPayload tabId competition season), api', log).
Proof.
  intros [<-|[<-|[<-|[]]]].
  - change (loadTab "live-matches" competition season e1 e2 e3)
      with (loadLiveMatches season e1).
    unfold loadLiveMatches, andThen. rewrite fetchMatches_via.
    change (tabEndpoint "live-matches" competition season)
      with "/eventsnextleague.php?id=4328".
    destruct (fetchData _ e1 api) as [[[p|err] api'] log]; cbn [Js.bind]; [|reflexivity].
    change (tabDataOfPayload "live-matches" competition season p)
      with (r <-- nextMatchesOfPayload season p ;;
            Ret (if (length (List.filter
                               (fun m => String.eqb (status m) "IN_PLAY"
                                         || String.eqb (status m) "LIVE")
                               (matches r)) =? 0)%nat
                 then MatchesWithMessage (matches r)
                        "No live matches at the moment - showing recent matches"
                 else MatchesData
                        {| matches := List.filter
                                        (fun m => String.eqb (status m) "IN_PLAY"
                                                  || String.eqb (status m) "LIVE")
                                        (matches r);
                           matchCount := matchCount r |})).
    destruct (nextMatchesOfPayload season p) as [r|err]; cbn [Js.bind]; [|reflexivity].
    destruct (_ =? 0)%nat; unfold ret; rewrite app_nil_r; reflexivity.
  - change (loadTab "league-tables" competition season e1 e2 e3)
      with (loadLeagueStandings competition season e1).
    unfold loadLeagueStandings, andThen. rewrite fetchStandings_via.
    change (tabEndpoint "league-tables" competition season)
      with (standingsEndpoint competition season).
    destruct (fetchData _ e1 api) as [[[p|err] api'] log]; cbn [Js.bind]; [|reflexivity].
    change (tabDataOfPayload "league-tables" competition season p)
      with (r <-- standingsOfPayload competition season p ;; Ret (StandingsData r)).
    destruct (standingsOfPayload competition season p) as [r|err]; cbn [Js.bind];
      [|reflexivity].
    unfold ret; rewrite app_nil_r; reflexivity.
  - change (loadTab "recent-results" competition season e1 e2 e3)
      with (loadRecentResults competition season e1).
    unfold loadRecentResults, andThen. rewrite fetchCompetitionMatches_via.
    change (tabEndpoint "recent-results" competition season)
      with (pastEventsEndpoint competition).
    destruct (fetchData _ e1 api) as [[[p|err] api'] log]; cbn [Js.bind]; [|reflexivity].
    change (tabDataOfPayload "recent-results" competition season p)
      with (r <-- pastMatchesOfPayload competition season p ;;
            Ret (MatchesData
                   {| matches := List.filter
                                   (fun m => String.eqb (status m) "FINISHED")
                                   (matches r);
                      matchCount := matchCount r |})).
    destruct (pastMatchesOfPayload competition season p) as [r|err]; cbn [Js.bind];
      [|reflexivity].
    unfold ret; rewrite app_nil_r; reflexivity.
Qed.

(** X17.  For the live matches, league tables and recent results tabs: when
    a [switchTab] goes to the provider and gets an answer, a second
    [switchTab] to the same tab, competition and season within ten minutes
    of it makes no request, stores the same tab data and leaves the cache
    as it is. *)
Theorem switchTab_again_within_ttl (tm : TabManager) (tabId competition : string)
    (season : option string) (e1 e2 e3 e1' e2' e3' : FetchEnv)
    (status : Z) (payload : value) :
  In tabId ["live-matches"; "league-tables"; "recent-results"] ->
  fresh (api tm) (tabEndpoint tabId competition season) (checkTime e1) = false ->
  response e1 = HttpResponse status (Some payload) ->
  responseOk status = true ->
  checkTime e1' - doneTime e1 < cacheExpiry ->
  let '(tm1, effects1) := switchTab tm tabId competition season e1 e2 e3 in
  let '(tm2, effects2) := switchTab tm1 tabId competition season e1' e2' e3' in
  List.filter isRequest effects1
  = [Request (fullUrl (tabEndpoint tabId competition season))]
  /\ List.filter isRequest effects2 = []
  /\ storedData effects2 = storedData effects1
  /\ tm2 = tm1.
Proof.
  intros Htab Hmiss Hresp Hok Hin.
  pose proof (switchTab_requests_are tm tabId competition season e1 e2 e3) as Hreq1.
  pose proof (storedData_switchTab tm tabId competition season e1 e2 e3) as Hdata1.
  rewrite (loadTab_via _ _ _ _ _ _ _ Htab),
    (fetchData_live_ok _ _ _ _ _ Hmiss Hresp Hok) in Hreq1, Hdata1.
  cbn [fst snd map] in Hreq1, Hdata1.
  assert (exists tm1 effects1,
            switchTab tm tabId competition season e1 e2 e3 = (tm1, effects1)
            /\ api tm1 = {| cache := <[tabEndpoint tabId competition season :=
                                        {| data := payload; timestamp := doneTime e1 |}]>
                                      (cache (api tm)) |}) as (tm1 & effects1 & E1 & Hapi).
  { unfold switchTab. rewrite (loadTab_via _ _ _ _ _ _ _ Htab),
      (fetchData_live_ok _ _ _ _ _ Hmiss Hresp Hok).
    eexists _, _. split; reflexivity. }
  rewrite E1 in *. cbn [snd] in Hreq1, Hdata1.
  pose proof (switchTab_requests_are tm1 tabId competition season e1' e2' e3') as Hreq2.
  pose proof (storedData_switchTab tm1 tabId competition season e1' e2' e3') as Hdata2.
  assert (fetchData (tabEndpoint tabId competition season) e1' (api tm1)
          = (Ret payload, api tm1, [])) as Hhit.
  { apply (fetchData_hit (api tm1) _ e1' {| data := payload; timestamp := doneTime e1 |});
      [|exact Hin].
    rewrite Hapi. apply lookup_insert_eq. }
  assert (fst (switchTab tm1 tabId competition season e1' e2' e3') = tm1) as Htm2.
  { unfold switchTab. rewrite (loadTab_via _ _ _ _ _ _ _ Htab), Hhit.
    destruct tm1. reflexivity. }
  rewrite (loadTab_via _ _ _ _ _ _ _ Htab), Hhit in Hreq2, Hdata2.
  cbn [fst snd map] in Hreq2, Hdata2.
  destruct (switchTab tm1 tabId competition season e1' e2' e3') as [tm2 effects2].
  cbn [fst snd] in *.
  split; [exact Hreq1|]. split; [exact Hreq2|].
  split; [congruence | exact Htm2].
Qed.

Lemma switchTab_again_within_ttl_witness :
  let up := {| checkTime := 1000;
               response := HttpResponse 200 (Some (VObj [("table", VArr [])]));
               doneTime := 1200 |} in
  let later := {| checkTime := 500000; response := NetworkError; doneTime := 500100 |} in
  let '(tm1, effects1) :=
    switchTab (newTabManager "live-matches") "league-tables" "PL" None up up up in
  let '(tm2, effects2) := switchTab tm1 "league-tables" "PL" None later later later in
  List.filter isRequest effects2 = [] /\ storedData effects2 = storedData effects1.
Proof.
  intros up later.
  pose proof (switchTab_again_within_ttl (newTabManager "live-matches") "league-tables"
                "PL" None up up up later later later 200
                (VObj [("table", VArr [])])) as H.
  destruct (switchTab (newTabManager "live-matches") "league-tables" "PL" None up up up)
    as [tm1 effects1].
  destruct (switchTab tm1 "league-tables" "PL" None later later later)
    as [tm2 effects2].
  destruct H as (_ & H2 & H3 & _);
    [cbn; tauto | reflexivity | reflexivity | reflexivity | reflexivity |].
  split; assumption.
Defined.

(** ** The contact form *)

Lemma trimStart_cases s :
  (trimStart s = "" /\ hasInk s = false)
  \/ (exists c r, trimStart s = String c r /\ isWhite c = false /\ hasInk s = true).
Proof.
  unfold hasInk. induction s as [|c r IH]; [left; split; reflexivity|].
  cbn [trimStart String.list_ascii_of_string existsb].
  destruct (isWhite c) eqn:Hc; cbn [negb orb].
  - exact IH.
  - right. exists c, r. repeat split. exact Hc.
Qed.

(** [!s.trim()] holds exactly for a string of white space only. *)
Lemma trim_blank s : String.eqb (trim s) "" = negb (hasInk s).
Proof.
  unfold trim.
  destruct (trimStart_cases s) as [[-> ->]|(c & r & -> & Hc & ->)]; [reflexivity|].
  cbn [trimEnd]. rewrite Hc. reflexivity.
Qed.

(** X18.  [handleSubmit] sends a message only when each of the four fields
    has a character that is not white space and the email contains '@';
    otherwise it shows one error toast and changes nothing.  When it sends,
    it sends once, with the four fields as typed and the fixed recipient;
    the submitting flag is raised before the send and lowered last, whether
    or not the send succeeds; the form is cleared when the send succeeds,
    and when it fails the mail client is opened instead and the form is
    kept. *)
Theorem handleSubmit_protocol (encodeURIComponent : string -> string)
    (env : BuildEnv) (formData : FormData) (sent : bool) :
  let valid :=
    hasInk (form_name formData) && hasInk (form_email formData)
    && hasInk (form_subject formData) && hasInk (form_message formData)
    && includes (form_email formData) "@" in
  let effects := handleSubmit encodeURIComponent env formData sent in
  (valid = false ->
   (exists text, effects = [PreventDefault; ToastError text])
   /\ List.filter changesPage effects = [])
  /\ (valid = true ->
      exists outcome,
        effects
        = ([PreventDefault; SetIsSubmitting true;
            EmailSend (serviceId (emailConfig env)) (templateId (emailConfig env))
                      {| from_name := form_name formData;
                         from_email := form_email formData;
                         param_subject := form_subject formData;
                         param_message := form_message formData;
                         to_email := "georgiogelias@gmail.com" |}
                      (publicKey (emailConfig env))]
           ++ outcome ++ [SetIsSubmitting false])%list
        /\ (sent = true ->
            exists text, outcome = [ToastSuccess text 5000; SetFormData emptyForm])
        /\ (sent = false ->
            exists text,
              outcome = [WindowOpen (mailtoLink encodeURIComponent formData) "_blank";
                         ToastError text])).
Proof.
  cbv zeta. unfold handleSubmit. rewrite !trim_blank.
  destruct (hasInk (form_name formData)), (hasInk (form_email formData)),
    (hasInk (form_subject formData)), (hasInk (form_message formData));
    cbn [negb orb andb];
    try (split; [intros _; split; [eexists; reflexivity | reflexivity]
                | discriminate]).
  destruct (includes (form_email formData) "@"); cbn [negb].
  - split; [discriminate|]. intros _.
    destruct sent; eexists; (split; [reflexivity|]);
      (split; [intros H|intros H]; try discriminate H; eexists; reflexivity).
  - split; [intros _; split; [eexists; reflexivity | reflexivity] | discriminate].
Qed.

Lemma handleSubmit_protocol_witness :
  let form := {| form_name := "Ada"; form_email := "ada.example.org";
                 form_subject := "Hello"; form_message := "Nice site" |} in
  let noEnv := {| VITE_EMAILJS_SERVICE_ID := None; VITE_EMAILJS_TEMPLATE_ID := None;
                  VITE_EMAILJS_PUBLIC_KEY := None |} in
  List.filter changesPage (handleSubmit (fun s => s) noEnv form true) = []
  /\ exists outcome,
       handleSubmit (fun s => s) noEnv
         {| form_name := "Ada"; form_email := "ada@example.org";
            form_subject := "Hello"; form_message := "Nice site" |} false
       = ([PreventDefault; SetIsSubmitting true;
           EmailSend "service_thy4hfj" "template_d0lvtr9"
                     {| from_name := "Ada"; from_email := "ada@example.org";
                        param_subject := "Hello"; param_message := "Nice site";
                        to_email := "georgiogelias@gmail.com" |}
                     "ZIxFb9TY2-bjZWZm9"]
          ++ outcome ++ [SetIsSubmitting false])%list.
Proof.
  intros form noEnv. split.
  - destruct (handleSubmit_protocol (fun s => s) noEnv form true) as [H _].
    apply H. reflexivity.
  - destruct (handleSubmit_protocol (fun s => s) noEnv
                {| form_name := "Ada"; form_email := "ada@example.org";
                   form_subject := "Hello"; form_message := "Nice site" |} false)
      as [_ H].
    destruct (H eq_refl) as (outcome & Heq & _). exists outcome. exact Heq.
Defined.

(** ** A provider outage and the tabs *)

Ltac abstract_dates now :=
  unfold mockEventsPayload;
  generalize (isoDate now) (isoDate (now - 86400000)) (isoDate (now + 86400000))
             (isoDate (now - 2 * 86400000)) (isoDate (now - 3 * 86400000))
             (isoDate (now - 7 * 86400000));
  intros ? ? ? ? ? ?.

Lemma mock_events_next season now :
  exists r,
    nextMatchesOfPayload season (mockEventsPayload now) = Ret r
    /\ map status (matches r)
       = ["FINISHED"; "FINISHED"; "SCHEDULED"; "FINISHED"; "FINISHED"; "FINISHED"]
    /\ matchCount r = 6%nat.
Proof.
  abstract_dates now.
  eexists. split; [lazy; reflexivity|].
  split; reflexivity.
Qed.

Lemma filterM_season (s : string) (l : list value) :
  List.Forall (fun ev => get ev "strSeason" = Ret (VStr "2024-2025")) l ->
  filterM (fun event => strSeason <-- get event "strSeason" ;;
                        Ret (eqStr strSeason s)) l
  = Ret (if String.eqb "2024-2025" s then l else []).
Proof.
  induction 1 as [|ev l Hev _ IH].
  - destruct (String.eqb "2024-2025" s); reflexivity.
  - cbn [filterM]. rewrite Hev, IH. cbn [Js.bind].
    change (eqStr (VStr "2024-2025") s) with (String.eqb "2024-2025" s).
    destruct (String.eqb "2024-2025" s); reflexivity.
Qed.

Lemma mock_events_past competition season now :
  exists r,
    pastMatchesOfPayload competition season (mockEventsPayload now) = Ret r
    /\ (seasonGiven season = None ->
        map status (matches r)
        = ["FINISHED"; "FINISHED"; "SCHEDULED"; "FINISHED"; "FINISHED"; "FINISHED"]
        /\ matchCount r = 6%nat).
Proof.
  unfold pastMatchesOfPayload.
  destruct (seasonGiven season) as [s|] eqn:Hs.
  - abstract_dates now.
    cbn [Js.bind isArray get assoc String.eqb Ascii.eqb Bool.eqb from_option id
         default].
    rewrite filterM_season by (repeat constructor).
    destruct (String.eqb "2024-2025" s); cbn [Js.bind].
    + eexists. split; [lazy -[getCompetitionName]; reflexivity | discriminate].
    + eexists. split; [reflexivity | discriminate].
  - abstract_dates now.
    eexists. split; [lazy -[getCompetitionName]; reflexivity|].
    intros _. split; reflexivity.
Qed.

Lemma past_endpoint_mock competition now :
  getMockData (pastEventsEndpoint competition) now = mockEventsPayload now.
Proof.
  unfold pastEventsEndpoint.
  destruct (getLeagueId_cases competition) as [<-|[<-|[<-|[<-|[<-|[]]]]]];
    reflexivity.
Qed.

Lemma filter_none {A} (f : A -> bool) l :
  List.Forall (fun x => f x = false) l -> List.filter f l = [].
Proof.
  induction 1 as [|x l Hx _ IH]; [reflexivity|]. cbn. rewrite Hx. exact IH.
Qed.

Lemma filter_status (f : string -> bool) (l : list Match) :
  map status (List.filter (fun m => f (status m)) l) = List.filter f (map status l).
Proof.
  induction l as [|m l IH]; [reflexivity|]. cbn.
  destruct (f (status m)); cbn; rewrite IH; reflexivity.
Qed.

Lemma standings_of_mock competition season now :
  exists r,
    standingsOfPayload competition season
      (getMockData (standingsEndpoint competition season) now) = Ret r
    /\ competitionCode r = competition
    /\ (r = getMockStandingsData competition season
        \/ map position (firstTable r) = [1; 2; 3; 4]).
Proof.
  destruct mock_table_rows as (l & rows & Hget & Hmap & Hpos & _).
  destruct (standings_mock_choice competition season now) as [[_ ->]|[_ ->]].
  - exists (getMockStandingsData competition season).
    split; [reflexivity|]. split; [reflexivity | left; reflexivity].
  - unfold standingsOfPayload. rewrite Hget. cbn [Js.bind isArray]. rewrite Hmap.
    cbn [Js.bind]. eexists. split; [reflexivity|].
    cbn [competitionCode firstTable standings table].
    split; [reflexivity | right; exact Hpos].
Qed.


(** X20.  A provider outage is not an error for the live matches, league
    tables and recent results tabs.  When the tab's live call fails,
    [switchTab] makes that one request, stores substitute data, shows the
    success toast and switches the loading flag off; the cache is left as
    it was.  The live matches tab stores the six substitute matches with
    the no-live-matches message, the league tables tab a table for the
    competition asked for (the four substitute rows or the mock dataset),
    and the recent results tab finished matches only, five of them with
    [count] six when no season was asked for. *)
Theorem switchTab_provider_down (tm : TabManager) (tabId competition : string)
    (season : option string) (e1 e2 e3 : FetchEnv) :
  In tabId ["live-matches"; "league-tables"; "recent-results"] ->
  liveFailure (api tm) (tabEndpoint tabId competition season) e1 ->
  exists d,
    switchTab tm tabId competition season e1 e2 e3
    = (tm,
       [SetActiveTab tabId; SetLoading true;
        Request (fullUrl (tabEndpoint tabId competition season));
        SetTabData d; ShowToast (successToast tabId); SetLoading false])
    /\ match d with
       | MatchesWithMessage ms message =>
           tabId = "live-matches"
           /\ length ms = 6%nat
           /\ message = "No live matches at the moment - showing recent matches"
       | StandingsData r =>
           tabId = "league-tables"
           /\ competitionCode r = competition
           /\ (r = getMockStandingsData competition season
               \/ map position (firstTable r) = [1; 2; 3; 4])
       | MatchesData r =>
           tabId = "recent-results"
           /\ List.Forall (fun m => status m = "FINISHED") (matches r)
           /\ (seasonGiven season = None ->
               length (matches r) = 5%nat /\ matchCount r = 6%nat)
       | _ => False
       end.
Proof.
  intros Htab [Hmiss Hfail]. unfold switchTab.
  rewrite (loadTab_via _ _ _ _ _ _ _ Htab),
    (fetchData_live_fail _ _ _ Hmiss Hfail).
  cbn [Js.bind]. destruct tm as [active a]. cbn [api activeTab].
  destruct Htab as [<-|[<-|[<-|[]]]].
  - change (tabEndpoint "live-matches" competition season)
      with "/eventsnextleague.php?id=4328".
    change (getMockData "/eventsnextleague.php?id=4328" (doneTime e1))
      with (mockEventsPayload (doneTime e1)).
    destruct (mock_events_next season (doneTime e1)) as (r & Hr & Hst & Hc).
    change (tabDataOfPayload "live-matches" competition season
              (mockEventsPayload (doneTime e1)))
      with (r <-- nextMatchesOfPayload season (mockEventsPayload (doneTime e1)) ;;
            Ret (if (length (List.filter
                               (fun m => String.eqb (status m) "IN_PLAY"
                                         || String.eqb (status m) "LIVE")
                               (matches r)) =? 0)%nat
                 then MatchesWithMessage (matches r)
                        "No live matches at the moment - showing recent matches"
                 else MatchesData
                        {| matches := List.filter
                                        (fun m => String.eqb (status m) "IN_PLAY"
                                                  || String.eqb (status m) "LIVE")
                                        (matches r);
                           matchCount := matchCount r |})).
    rewrite Hr. cbn [Js.bind].
    assert (List.filter (fun m => String.eqb (status m) "IN_PLAY"
                                  || String.eqb (status m) "LIVE") (matches r) = [])
      as ->.
    { apply (f_equal (@length _)) in Hst as Hlen. rewrite length_map in Hlen.
      destruct (List.filter _ (matches r)) as [|m rest] eqn:E; [reflexivity|].
      apply (f_equal (map status)) in E.
      rewrite (filter_status (fun s => String.eqb s "IN_PLAY" || String.eqb s "LIVE"))
        in E.
      rewrite Hst in E. discriminate E. }
    cbn [length Nat.eqb]. eexists. split; [reflexivity|].
    split; [reflexivity|]. split; [|reflexivity].
    rewrite <- (length_map status), Hst. reflexivity.
  - change (tabEndpoint "league-tables" competition season)
      with (standingsEndpoint competition season).
    destruct (standings_of_mock competition season (doneTime e1))
      as (r & Hr & Hcode & Hrows).
    change (tabDataOfPayload "league-tables" competition season
              (getMockData (standingsEndpoint competition season) (doneTime e1)))
      with (r <-- standingsOfPayload competition season
                    (getMockData (standingsEndpoint competition season) (doneTime e1)) ;;
            Ret (StandingsData r)).
    rewrite Hr. cbn [Js.bind]. eexists. split; [reflexivity|].
    split; [reflexivity|]. split; assumption.
  - change (tabEndpoint "recent-results" competition season)
      with (pastEventsEndpoint competition).
    rewrite past_endpoint_mock.
    destruct (mock_events_past competition season (doneTime e1))
      as (r & Hr & Hnone).
    change (tabDataOfPayload "recent-results" competition season
              (mockEventsPayload (doneTime e1)))
      with (r <-- pastMatchesOfPayload competition season
                    (mockEventsPayload (doneTime e1)) ;;
            Ret (MatchesData
                   {| matches := List.filter
                                   (fun m => String.eqb (status m) "FINISHED")
                                   (matches r);
                      matchCount := matchCount r |})).
    rewrite Hr. cbn [Js.bind]. eexists. split; [reflexivity|].
    split; [reflexivity|]. cbn [matches matchCount]. split.
    + eapply List.Forall_impl; [|apply filter_all].
      intros m Hm. apply String.eqb_eq, Hm.
    + intros Hs. destruct (Hnone Hs) as [Hst Hc]. split; [|exact Hc].
      rewrite <- (length_map status),
        (filter_status (fun s => String.eqb s "FINISHED")), Hst.
      reflexivity.
Qed.

Lemma switchTab_provider_down_witness :
  let down := {| checkTime := 0; response := NetworkError; doneTime := 0 |} in
  exists d,
    switchTab (newTabManager "live-matches") "recent-results" "SA" None down down down
    = (newTabManager "live-matches",
       [SetActiveTab "recent-results"; SetLoading true;
        Request (fullUrl (tabEndpoint "recent-results" "SA" None));
        SetTabData d; ShowToast (successToast "recent-results"); SetLoading false])
    /\ match d with
       | MatchesData r => length (matches r) = 5%nat /\ matchCount r = 6%nat
       | _ => False
       end.
Proof.
  intros down.
  destruct (switchTab_provider_down (newTabManager "live-matches") "recent-results"
              "SA" None down down down) as (d & Hd & Hshape).
  - cbn. tauto.
  - split; reflexivity.
  - exists d. split; [exact Hd|].
    destruct d as [ms message|r|r|r|err message|err m1 m2 ms ts ss];
      try exact Hshape; try (destruct Hshape as [Habs _]; discriminate Habs).
    destruct Hshape as (_ & _ & H). exact (H eq_refl).
Defined.
